(** * The ZMK auto-layer input processor

    A shallow embedding of the two implementations of the auto-layer input
    processor found in the repository:

    - [Mouse]     : src/mouse/input_processor_auto_layer.c (linear scan of
                    the excluded positions, timer callback without a check of
                    the controller's own flag);
    - [Optimized] : the variant with the "Optimized Position Search"
                    (binary search above [SMALL_ARRAY_THRESHOLD] entries) and
                    [update_layer_state].

    The device data, the keymap's set of active layers, the array of
    delayable works and the sequence of calls made to the platform are
    threaded explicitly through every entry point as a [world]. *)

From Stdlib Require Import ZArith List Bool Lia Sorted.
From stdpp Require Import base gmap sets list.
Local Open Scope Z_scope.

(** ** Machine integers *)

(** [size_t] and [uint32_t] are 32 bits wide on the targets of the firmware;
    unsigned arithmetic wraps around. *)
Definition size_t (z : Z) : Z := z mod 2 ^ 32.
Definition SIZE_MAX : Z := 2 ^ 32 - 1.

(** [uint8_t], the type of [toggle_layer]. *)
Definition uint8_t (z : Z) : Z := z mod 2 ^ 8.

(** [int64_t], the type of the timestamps; the addition of the guard is
    written with two's complement wrap-around. *)
Definition int64_t (z : Z) : Z := (z + 2 ^ 63) mod 2 ^ 64 - 2 ^ 63.

Definition in_int64 (z : Z) : Prop := - 2 ^ 63 <= z < 2 ^ 63.

(** errno.h *)
Definition EINVAL : Z := 22.

(** ** Data model *)

(** [processor_auto_layer_config_t] / [struct auto_layer_config].  The pair
    ([excluded_positions], [num_positions]) is only ever built by
    [AUTO_LAYER_INST] from one devicetree array and its length, so it is
    kept as a list; [num_positions] is its length. *)
Record auto_layer_config := {
  require_prior_idle_ms : Z;
  excluded_positions : list Z
}.

Definition num_positions (config : auto_layer_config) : Z :=
  Z.of_nat (length (excluded_positions config)).

(** [processor_auto_layer_data_t] / [struct auto_layer_state] (the [dev]
    back pointer is never read). *)
Record auto_layer_state := {
  toggle_layer : Z;
  is_active : bool;
  last_tapped_timestamp : Z
}.

(** The fields of [struct zmk_position_state_changed] and of
    [struct zmk_keycode_state_changed] that the handlers read (the [state]
    field of each is prefixed, records sharing one name space). *)
Record zmk_position_state_changed := {
  position : Z;
  pos_state : bool
}.

Record zmk_keycode_state_changed := {
  usage_page : Z;
  keycode : Z;
  key_state : bool;
  timestamp : Z
}.

(** Calls made to the platform, in the order they are made. *)
Inductive call :=
| Activate (layer : Z)
| Deactivate (layer : Z)
| Reschedule (index delay : Z).

Record world := {
  data : auto_layer_state;
  layers : gset Z;
  layer_disable_works : gmap Z Z;
  trace : list call
}.

Definition set_toggle_layer (l : Z) (w : world) : world :=
  {| data := {| toggle_layer := l;
                is_active := is_active (data w);
                last_tapped_timestamp := last_tapped_timestamp (data w) |};
     layers := layers w;
     layer_disable_works := layer_disable_works w;
     trace := trace w |}.

Definition set_is_active (b : bool) (w : world) : world :=
  {| data := {| toggle_layer := toggle_layer (data w);
                is_active := b;
                last_tapped_timestamp := last_tapped_timestamp (data w) |};
     layers := layers w;
     layer_disable_works := layer_disable_works w;
     trace := trace w |}.

Definition set_last_tapped_timestamp (t : Z) (w : world) : world :=
  {| data := {| toggle_layer := toggle_layer (data w);
                is_active := is_active (data w);
                last_tapped_timestamp := t |};
     layers := layers w;
     layer_disable_works := layer_disable_works w;
     trace := trace w |}.

(** ** The platform *)

(** Modelled from the spec: the layer-activation primitive of the keymap
    (zmk/keymap.h), [activate]/[deactivate]/[is_active], idempotent and
    immediately observable. *)
Definition zmk_keymap_layer_active (layer : Z) (w : world) : bool :=
  bool_decide (layer ∈ layers w).

Definition zmk_keymap_layer_activate (layer : Z) (w : world) : world :=
  {| data := data w;
     layers := {[layer]} ∪ layers w;
     layer_disable_works := layer_disable_works w;
     trace := trace w ++ [Activate layer] |}.

Definition zmk_keymap_layer_deactivate (layer : Z) (w : world) : world :=
  {| data := data w;
     layers := layers w ∖ {[layer]};
     layer_disable_works := layer_disable_works w;
     trace := trace w ++ [Deactivate layer] |}.

(** Modelled from the spec: the deferred-task scheduler (zephyr/kernel.h),
    one one-shot timer per layer index; scheduling again replaces the
    pending delay.  The map holds the delay, in milliseconds, of each
    pending work. *)
Definition k_work_reschedule (index delay : Z) (w : world) : world :=
  {| data := data w;
     layers := layers w;
     layer_disable_works := <[index := delay]> (layer_disable_works w);
     trace := trace w ++ [Reschedule index delay] |}.

(** A pending work expires: it stops being pending, then [callback] runs
    with the index of the work in the array. *)
Definition k_work_expire (callback : Z -> world -> world)
    (index : Z) (w : world) : world :=
  callback index
    {| data := data w;
       layers := layers w;
       layer_disable_works := delete index (layer_disable_works w);
       trace := trace w |}.

(** Does the trace contain a call to the layer primitive? *)
Definition is_layer_call (c : call) : bool :=
  match c with
  | Activate _ | Deactivate _ => true
  | Reschedule _ _ => false
  end.

Definition is_reschedule (c : call) : bool :=
  match c with
  | Reschedule _ _ => true
  | _ => false
  end.

(** The outcome of code that reads the array of excluded positions: a
    value, a read outside the array (undefined behaviour in C), or a loop
    cut short by the fuel of the embedding. *)
Inductive outcome (A : Type) :=
| Returns (a : A)
| OutOfBounds
| OutOfFuel.
Arguments Returns {A} a.
Arguments OutOfBounds {A}.
Arguments OutOfFuel {A}.

(** The entry points, as delivered by the event source and the scheduler.
    [Trigger] carries the value that [k_uptime_get] returns during the
    call. *)
Inductive event :=
| Trigger (param1 param2 now : Z)
| PositionChanged (ev : zmk_position_state_changed)
| KeycodeChanged (ev : zmk_keycode_state_changed)
| WorkExpired (layer_index : Z).

(** ** src/mouse/input_processor_auto_layer.c *)

Module Mouse.

Fixpoint scan (positions : list Z) (p : Z) : bool :=
  match positions with
  | [] => false
  | x :: rest => if x =? p then true else scan rest p
  end.

Definition is_position_excluded (config : auto_layer_config) (p : Z) : bool :=
  scan (excluded_positions config) p.

Definition should_quick_tap (config : auto_layer_config)
    (d : auto_layer_state) (now : Z) : bool :=
  int64_t (last_tapped_timestamp d + require_prior_idle_ms config) >? now.

Definition handle_position_state_changed (cfg : auto_layer_config)
    (ev : zmk_position_state_changed) (w : world) : world :=
  if pos_state ev && is_active (data w)
     && negb (is_position_excluded cfg (position ev))
  then zmk_keymap_layer_deactivate (toggle_layer (data w))
         (set_is_active false w)
  else w.

Definition layer_disable_cb (layer_index : Z) (w : world) : world :=
  if zmk_keymap_layer_active layer_index w
  then zmk_keymap_layer_deactivate layer_index (set_is_active false w)
  else w.

Section Platform.
Variable ZMK_KEYMAP_LAYERS_LEN : Z.
Variable is_mod : Z -> Z -> bool.

Definition handle_keycode_state_changed
    (ev : zmk_keycode_state_changed) (w : world) : world :=
  if key_state ev && negb (is_mod (usage_page ev) (keycode ev))
  then set_last_tapped_timestamp (timestamp ev) w
  else w.

Definition auto_layer_handle_event (cfg : auto_layer_config)
    (param1 param2 now : Z) (w : world) : Z * world :=
  if param1 >=? ZMK_KEYMAP_LAYERS_LEN then (- EINVAL, w)
  else
    let w1 := set_toggle_layer (uint8_t param1) w in
    let w2 :=
      if negb (is_active (data w1))
         && negb (should_quick_tap cfg (data w1) now)
      then zmk_keymap_layer_activate (toggle_layer (data w1))
             (set_is_active true w1)
      else w1 in
    let w3 :=
      if param2 >? 0 then k_work_reschedule param1 param2 w2 else w2 in
    (0, w3).

Definition step (cfg : auto_layer_config) (e : event) (w : world) : world :=
  match e with
  | Trigger param1 param2 now =>
      snd (auto_layer_handle_event cfg param1 param2 now w)
  | PositionChanged ev => handle_position_state_changed cfg ev w
  | KeycodeChanged ev => handle_keycode_state_changed ev w
  | WorkExpired layer_index => k_work_expire layer_disable_cb layer_index w
  end.

Fixpoint run (cfg : auto_layer_config) (es : list event) (w : world)
    : world :=
  match es with
  | [] => w
  | e :: rest => run cfg rest (step cfg e w)
  end.
End Platform.

(** [auto_layer_init]: the flag and the timestamp are reset, every work is
    initialised (none pending). *)
Definition auto_layer_init (w : world) : world :=
  {| data := {| toggle_layer := toggle_layer (data w);
                is_active := false;
                last_tapped_timestamp := 0 |};
     layers := layers w;
     layer_disable_works := ∅;
     trace := trace w |}.

End Mouse.

(** ** The variant with the optimized position search *)

Module Optimized.

Definition SMALL_ARRAY_THRESHOLD : Z := 8.

(** [excluded_positions[i]]: a read at an index outside the array has no
    value. *)
Definition read (positions : list Z) (i : Z) : option Z :=
  if i <? Z.of_nat (length positions) then positions !! Z.to_nat i
  else None.

(** The [while (left <= right)] loop of the binary search, on [size_t]
    indices.  [mid - 1] wraps to [SIZE_MAX] when [mid] is 0; the read at
    [mid] is then outside the array. *)
Fixpoint bsearch (fuel : nat) (positions : list Z) (p left right : Z)
    : outcome bool :=
  match fuel with
  | O => OutOfFuel
  | S fuel' =>
      if left <=? right then
        let mid := size_t (left + right) / 2 in
        match read positions mid with
        | None => OutOfBounds
        | Some mid_val =>
            if mid_val =? p then Returns true
            else if mid_val <? p
                 then bsearch fuel' positions p (size_t (mid + 1)) right
                 else bsearch fuel' positions p left (size_t (mid - 1))
        end
      else Returns false
  end.

(** The pointer loop of the linear search. *)
Fixpoint linear (positions : list Z) (p : Z) : bool :=
  match positions with
  | [] => false
  | x :: rest => if x =? p then true else linear rest p
  end.

(** The test [!config->excluded_positions || !config->num_positions]: the
    pointer is the devicetree array itself, so the test comes down to the
    number of entries. *)
Definition position_is_excluded (config : auto_layer_config) (p : Z)
    : outcome bool :=
  if num_positions config =? 0 then Returns false
  else if num_positions config >? SMALL_ARRAY_THRESHOLD
       then bsearch (S (length (excluded_positions config)))
              (excluded_positions config) p 0 (num_positions config - 1)
       else Returns (linear (excluded_positions config) p).

Definition should_quick_tap (config : auto_layer_config)
    (last_tapped current_time : Z) : bool :=
  int64_t (last_tapped + require_prior_idle_ms config) >? current_time.

Definition update_layer_state (activate : bool) (w : world) : world :=
  if Bool.eqb (is_active (data w)) activate then w
  else
    let w1 := set_is_active activate w in
    if activate
    then zmk_keymap_layer_activate (toggle_layer (data w1)) w1
    else zmk_keymap_layer_deactivate (toggle_layer (data w1)) w1.

Definition layer_disable_callback (layer_index : Z) (w : world) : world :=
  if zmk_keymap_layer_active layer_index w
  then update_layer_state false w
  else w.

Definition handle_position_state_changed (cfg : auto_layer_config)
    (ev : zmk_position_state_changed) (w : world) : outcome world :=
  if negb (pos_state ev) then Returns w
  else if is_active (data w) then
    match position_is_excluded cfg (position ev) with
    | Returns excluded =>
        if negb excluded then Returns (update_layer_state false w)
        else Returns w
    | OutOfBounds => OutOfBounds
    | OutOfFuel => OutOfFuel
    end
  else Returns w.

Section Platform.
Variable MAX_LAYERS : Z.
Variable is_mod : Z -> Z -> bool.

Definition handle_keycode_state_changed
    (ev : zmk_keycode_state_changed) (w : world) : world :=
  if negb (key_state ev) || is_mod (usage_page ev) (keycode ev) then w
  else set_last_tapped_timestamp (timestamp ev) w.

Definition auto_layer_handle_event (cfg : auto_layer_config)
    (param1 param2 now : Z) (w : world) : Z * world :=
  if param1 >=? MAX_LAYERS then (- EINVAL, w)
  else
    let w1 := set_toggle_layer (uint8_t param1) w in
    let w2 :=
      if negb (is_active (data w1))
         && negb (should_quick_tap cfg
                    (last_tapped_timestamp (data w1)) now)
      then update_layer_state true w1
      else w1 in
    let w3 :=
      if param2 >? 0 then k_work_reschedule param1 param2 w2 else w2 in
    (0, w3).

Definition step (cfg : auto_layer_config) (e : event) (w : world)
    : outcome world :=
  match e with
  | Trigger param1 param2 now =>
      Returns (snd (auto_layer_handle_event cfg param1 param2 now w))
  | PositionChanged ev => handle_position_state_changed cfg ev w
  | KeycodeChanged ev => Returns (handle_keycode_state_changed ev w)
  | WorkExpired layer_index =>
      Returns (k_work_expire layer_disable_callback layer_index w)
  end.

Fixpoint run (cfg : auto_layer_config) (es : list event) (w : world)
    : outcome world :=
  match es with
  | [] => Returns w
  | e :: rest =>
      match step cfg e w with
      | Returns w' => run cfg rest w'
      | OutOfBounds => OutOfBounds
      | OutOfFuel => OutOfFuel
      end
  end.
End Platform.

(** [auto_layer_init]: the state is zeroed, every work is initialised. *)
Definition auto_layer_init (w : world) : world :=
  {| data := {| toggle_layer := 0;
                is_active := false;
                last_tapped_timestamp := 0 |};
     layers := layers w;
     layer_disable_works := ∅;
     trace := trace w |}.

End Optimized.

(** ** Concrete platforms and configurations used in the examples *)

(** [is_mod] of zmk/hid.h: the keyboard page, usages 0xE0 to 0xE7. *)
Definition hid_is_mod (page code : Z) : bool :=
  (0xE0 <=? code) && (code <=? 0xE7) && (page =? 0x07).

Definition world0 : world :=
  {| data := {| toggle_layer := 0; is_active := false;
                last_tapped_timestamp := 0 |};
     layers := ∅;
     layer_disable_works := ∅;
     trace := [] |}.

Definition key_down (code t : Z) : zmk_keycode_state_changed :=
  {| usage_page := 0x07; keycode := code; key_state := true;
     timestamp := t |}.

Definition key_up (code t : Z) : zmk_keycode_state_changed :=
  {| usage_page := 0x07; keycode := code; key_state := false;
     timestamp := t |}.

Definition press (p : Z) : zmk_position_state_changed :=
  {| position := p; pos_state := true |}.

Definition cfg_scenario : auto_layer_config :=
  {| require_prior_idle_ms := 150; excluded_positions := [3; 4] |}.

Definition cfg_sorted9 : auto_layer_config :=
  {| require_prior_idle_ms := 0;
     excluded_positions := [1; 2; 3; 4; 5; 6; 7; 8; 9] |}.

Definition cfg_unsorted9 : auto_layer_config :=
  {| require_prior_idle_ms := 0;
     excluded_positions := [9; 8; 7; 6; 5; 4; 3; 2; 1] |}.

Definition active_on (l : Z) : world :=
  {| data := {| toggle_layer := l; is_active := true;
                last_tapped_timestamp := 0 |};
     layers := {[l]};
     layer_disable_works := ∅;
     trace := [] |}.

(** The scenario of the specification: a tap at 1000, a trigger for layer
    2 at 1100 and again at 1200, then presses at positions 4 and 5 and a
    later tap. *)
Definition scenario_start : list event :=
  [KeycodeChanged (key_down 4 1000); Trigger 2 300 1100].

Definition scenario_rest : list event :=
  [Trigger 2 300 1200; PositionChanged (press 4); PositionChanged (press 5);
   KeycodeChanged (key_down 5 1400)].

(** Keycode events that the handler does not store, stamped earlier than
    the tap at 1000 (a left-shift key-down and a key-up), then a later
    tap. *)
Definition scenario_unstored : list event :=
  [KeycodeChanged (key_down 0xE1 990); KeycodeChanged (key_up 4 900);
   PositionChanged (press 5); KeycodeChanged (key_down 5 1400)].

(** A trigger for layer 1 suppressed by the guard (its work is pending, the
    controller is idle), after which layer 1 is switched on by another
    behaviour of the keymap. *)
Definition held_elsewhere : world :=
  let w := Mouse.run 4 hid_is_mod cfg_scenario
             [KeycodeChanged (key_down 4 1000); Trigger 1 300 1100] world0 in
  {| data := data w;
     layers := {[1]} ∪ layers w;
     layer_disable_works := layer_disable_works w;
     trace := trace w |}.

(** ** The four entry points, for either implementation *)

Inductive variant := mouse | optimized.

Definition lift (w : world) : outcome world := Returns w.

Section EntryPoints.
Variable ZMK_KEYMAP_LAYERS_LEN : Z.
Variable is_mod : Z -> Z -> bool.

Definition on_trigger (v : variant) :=
  match v with
  | mouse => Mouse.auto_layer_handle_event ZMK_KEYMAP_LAYERS_LEN
  | optimized => Optimized.auto_layer_handle_event ZMK_KEYMAP_LAYERS_LEN
  end.

Definition on_position_changed (v : variant) (cfg : auto_layer_config)
    (ev : zmk_position_state_changed) (w : world) : outcome world :=
  match v with
  | mouse => lift (Mouse.handle_position_state_changed cfg ev w)
  | optimized => Optimized.handle_position_state_changed cfg ev w
  end.

Definition on_keycode_changed (v : variant) :=
  match v with
  | mouse => Mouse.handle_keycode_state_changed is_mod
  | optimized => Optimized.handle_keycode_state_changed is_mod
  end.

Definition on_deactivation_timer (v : variant) :=
  match v with
  | mouse => Mouse.layer_disable_cb
  | optimized => Optimized.layer_disable_callback
  end.

Definition on_event (v : variant) (cfg : auto_layer_config) (e : event)
    (w : world) : outcome world :=
  match v with
  | mouse => lift (Mouse.step ZMK_KEYMAP_LAYERS_LEN is_mod cfg e w)
  | optimized => Optimized.step ZMK_KEYMAP_LAYERS_LEN is_mod cfg e w
  end.

Definition on_events (v : variant) (cfg : auto_layer_config)
    (es : list event) (w : world) : outcome world :=
  match v with
  | mouse => lift (Mouse.run ZMK_KEYMAP_LAYERS_LEN is_mod cfg es w)
  | optimized => Optimized.run ZMK_KEYMAP_LAYERS_LEN is_mod cfg es w
  end.
End EntryPoints.

(** [auto_layer_init] of either implementation. *)
Definition on_init (v : variant) : world -> world :=
  match v with
  | mouse => Mouse.auto_layer_init
  | optimized => Optimized.auto_layer_init
  end.

(** The timestamp of the last tap after a run from [world0] on the
    4-layer keymap of the examples. *)
Definition last_tap_after (v : variant) (cfg : auto_layer_config)
    (es : list event) : option Z :=
  match on_events 4 hid_is_mod v cfg es world0 with
  | Returns w => Some (last_tapped_timestamp (data w))
  | _ => None
  end.

(** The calls that a trigger makes after the activation decision. *)
Definition reschedule_calls (param1 param2 : Z) : list call :=
  if param2 >? 0 then [Reschedule param1 param2] else [].

(** Is the keycode event one whose timestamp the handler stores: the
    key-down of a key that is no modifier? *)
Definition is_tap (is_mod : Z -> Z -> bool) (ev : zmk_keycode_state_changed)
    : bool :=
  key_state ev && negb (is_mod (usage_page ev) (keycode ev)).

(** The timestamps of the non-modifier key-downs of a sequence; key-ups,
    modifier key-downs and the other entry points contribute nothing. *)
Fixpoint tap_timestamps (is_mod : Z -> Z -> bool) (es : list event) : list Z :=
  match es with
  | [] => []
  | KeycodeChanged ev :: rest =>
      if is_tap is_mod ev
      then timestamp ev :: tap_timestamps is_mod rest
      else tap_timestamps is_mod rest
  | _ :: rest => tap_timestamps is_mod rest
  end.

(** [latest t ts]: the last of [ts], or [t] when [ts] is empty. *)
Fixpoint latest (t : Z) (ts : list Z) : Z :=
  match ts with
  | [] => t
  | t' :: rest => latest t' rest
  end.

(** [ascending t ts]: [t] and then [ts] never go back in time. *)
Fixpoint ascending (t : Z) (ts : list Z) : bool :=
  match ts with
  | [] => true
  | t' :: rest => (t <=? t') && ascending t' rest
  end.

(** Activations not yet matched by a deactivation, counted over the calls
    made so far. *)
Fixpoint outstanding (calls : list call) : Z :=
  match calls with
  | [] => 0
  | Activate _ :: rest => 1 + outstanding rest
  | Deactivate _ :: rest => -1 + outstanding rest
  | Reschedule _ _ :: rest => outstanding rest
  end.

(** How far the flag of the controller is ahead of the calls it made. *)
Definition slack (w : world) : Z :=
  Z.b2z (is_active (data w)) - outstanding (trace w).

Definition is_deactivate (c : call) : bool :=
  match c with
  | Deactivate _ => true
  | _ => false
  end.

(** * Properties *)

(** ** Machine integers *)

Lemma int64_t_id z : in_int64 z -> int64_t z = z.
Proof.
  unfold in_int64, int64_t. intros Hz.
  rewrite Z.mod_small by lia. lia.
Qed.

Lemma uint8_t_id z : 0 <= z < 256 -> uint8_t z = z.
Proof. intros Hz. unfold uint8_t. apply Z.mod_small. lia. Qed.

Lemma size_t_id z : 0 <= z < 2 ^ 32 -> size_t z = z.
Proof. intros Hz. unfold size_t. now apply Z.mod_small. Qed.

(** ** The guard *)

Lemma should_quick_tap_true cfg d now :
  in_int64 (last_tapped_timestamp d + require_prior_idle_ms cfg) ->
  Mouse.should_quick_tap cfg d now = true <->
  now < last_tapped_timestamp d + require_prior_idle_ms cfg.
Proof.
  intros Hr. unfold Mouse.should_quick_tap.
  rewrite (int64_t_id _ Hr). rewrite Z.gtb_ltb. apply Z.ltb_lt.
Qed.

Lemma should_quick_tap_false cfg d now :
  in_int64 (last_tapped_timestamp d + require_prior_idle_ms cfg) ->
  Mouse.should_quick_tap cfg d now = false <->
  last_tapped_timestamp d + require_prior_idle_ms cfg <= now.
Proof.
  intros Hr. unfold Mouse.should_quick_tap.
  rewrite (int64_t_id _ Hr). rewrite Z.gtb_ltb. apply Z.ltb_ge.
Qed.

Lemma should_quick_tap_same cfg d now :
  Optimized.should_quick_tap cfg (last_tapped_timestamp d) now
  = Mouse.should_quick_tap cfg d now.
Proof. reflexivity. Qed.

(** ** The two implementations agree on the trigger and on keycodes *)

Lemma update_layer_state_activate w :
  is_active (data w) = false ->
  Optimized.update_layer_state true w
  = zmk_keymap_layer_activate (toggle_layer (data w)) (set_is_active true w).
Proof. intros Hw. unfold Optimized.update_layer_state. now rewrite Hw. Qed.

Lemma update_layer_state_deactivate w :
  is_active (data w) = true ->
  Optimized.update_layer_state false w
  = zmk_keymap_layer_deactivate (toggle_layer (data w))
      (set_is_active false w).
Proof. intros Hw. unfold Optimized.update_layer_state. now rewrite Hw. Qed.

Lemma update_layer_state_same w :
  Optimized.update_layer_state (is_active (data w)) w = w.
Proof.
  unfold Optimized.update_layer_state. now rewrite Bool.eqb_reflx.
Qed.

Lemma trigger_agree len cfg param1 param2 now w :
  Optimized.auto_layer_handle_event len cfg param1 param2 now w
  = Mouse.auto_layer_handle_event len cfg param1 param2 now w.
Proof.
  unfold Optimized.auto_layer_handle_event, Mouse.auto_layer_handle_event.
  destruct (param1 >=? len); [reflexivity|].
  cbv zeta. rewrite should_quick_tap_same.
  destruct (is_active (data (set_toggle_layer (uint8_t param1) w))) eqn:Ha;
    cbn [negb andb]; [reflexivity|].
  destruct (Mouse.should_quick_tap _ _ _); cbn [negb]; [reflexivity|].
  now rewrite update_layer_state_activate.
Qed.

Lemma keycode_agree is_mod ev w :
  Optimized.handle_keycode_state_changed is_mod ev w
  = Mouse.handle_keycode_state_changed is_mod ev w.
Proof.
  unfold Optimized.handle_keycode_state_changed,
    Mouse.handle_keycode_state_changed.
  destruct (key_state ev), (is_mod _ _); reflexivity.
Qed.

Lemma on_trigger_mouse len v cfg param1 param2 now w :
  on_trigger len v cfg param1 param2 now w
  = Mouse.auto_layer_handle_event len cfg param1 param2 now w.
Proof. destruct v; [reflexivity | apply trigger_agree]. Qed.

Lemma on_keycode_mouse is_mod v ev w :
  on_keycode_changed is_mod v ev w
  = Mouse.handle_keycode_state_changed is_mod ev w.
Proof. destruct v; [reflexivity | apply keycode_agree]. Qed.

(** What a trigger with a valid layer does, in one equation. *)
Lemma trigger_valid len cfg param1 param2 now w :
  0 <= param1 < len -> len <= 256 ->
  Mouse.auto_layer_handle_event len cfg param1 param2 now w
  = (0,
     let w1 := set_toggle_layer param1 w in
     let w2 := if is_active (data w) || Mouse.should_quick_tap cfg (data w) now
               then w1
               else zmk_keymap_layer_activate param1 (set_is_active true w1) in
     if param2 >? 0 then k_work_reschedule param1 param2 w2 else w2).
Proof.
  intros Hp Hlen. unfold Mouse.auto_layer_handle_event.
  destruct (Z.geb_spec param1 len) as [Hge|_]; [lia|].
  rewrite uint8_t_id by lia. cbv zeta. cbn [set_toggle_layer data is_active].
  replace (Mouse.should_quick_tap cfg _ now)
    with (Mouse.should_quick_tap cfg (data w) now) by reflexivity.
  destruct (is_active (data w)); cbn [negb andb orb]; [reflexivity|].
  destruct (Mouse.should_quick_tap cfg (data w) now); reflexivity.
Qed.

(** ** The quick-tap guard (C1) *)

Section Claims.
Variable ZMK_KEYMAP_LAYERS_LEN : Z.
Variable is_mod : Z -> Z -> bool.

(** The layer indices fit [toggle_layer]. *)
Hypothesis layers_fit : ZMK_KEYMAP_LAYERS_LEN <= 256.

(** C1, as amended: after a qualifying tap at [t0] and with the
    controller idle, a trigger strictly before [t0 + T] does not activate
    the layer (the flag stays false, the set of active layers is
    unchanged and no call to the layer primitive is made), and a trigger
    at [t0 + T] or later activates it.  The comparison of the guard is
    strict: at [now = t0 + T] the guard does not apply. *)
Theorem C1_quick_tap_boundary v cfg kev param1 param2 now w :
  key_state kev = true ->
  is_mod (usage_page kev) (keycode kev) = false ->
  is_active (data w) = false ->
  0 <= param1 < ZMK_KEYMAP_LAYERS_LEN ->
  in_int64 (timestamp kev + require_prior_idle_ms cfg) ->
  let t0 := timestamp kev in
  let T := require_prior_idle_ms cfg in
  let w' :=
  snd (on_trigger ZMK_KEYMAP_LAYERS_LEN v cfg param1 param2 now
         (on_keycode_changed is_mod v kev w)) in
  (now < t0 + T ->
     is_active (data w') = false /\
     layers w' = layers w /\
     trace w' = trace w ++ reschedule_calls param1 param2) /\
  (t0 + T <= now ->
     is_active (data w') = true /\
     layers w' = {[param1]} ∪ layers w /\
     trace w' = trace w ++ Activate param1 :: reschedule_calls param1 param2).
Proof.
  intros Hdown Hmod Hidle Hp Hr t0 T w'. subst w'.
  rewrite on_trigger_mouse, on_keycode_mouse.
  rewrite trigger_valid by assumption.
  unfold Mouse.handle_keycode_state_changed. rewrite Hdown, Hmod.
  cbn [andb negb snd]. cbv zeta.
  set (w1 := set_last_tapped_timestamp (timestamp kev) w).
  assert (Hlast : last_tapped_timestamp (data w1) = t0) by reflexivity.
  assert (Hact : is_active (data w1) = false) by exact Hidle.
  rewrite Hact. cbn [orb].
  split; intros Hnow.
  - assert (Hg : Mouse.should_quick_tap cfg (data w1) now = true).
    { apply should_quick_tap_true; rewrite Hlast; [exact Hr | exact Hnow]. }
    rewrite Hg. unfold reschedule_calls.
    destruct (param2 >? 0); cbn; rewrite ?app_nil_r; auto.
  - assert (Hg : Mouse.should_quick_tap cfg (data w1) now = false).
    { apply should_quick_tap_false; rewrite Hlast; [exact Hr | exact Hnow]. }
    rewrite Hg. unfold reschedule_calls.
    destruct (param2 >? 0); cbn; rewrite <- ?app_assoc; auto.
Qed.

(** ** The trigger (C4, C6, C7, C9) *)

(** C4: a trigger whose layer is not below the number of layers returns
    [-EINVAL] and leaves the whole world as it was (device data, active
    layers, pending works, calls made); every other trigger returns 0,
    so this is the only error that the entry point reports.  The three
    other entry points return no error code at all. *)
Theorem C4_invalid_argument v cfg param1 param2 now w :
  (ZMK_KEYMAP_LAYERS_LEN <= param1 ->
     on_trigger ZMK_KEYMAP_LAYERS_LEN v cfg param1 param2 now w = (- EINVAL, w)) /\
  (param1 < ZMK_KEYMAP_LAYERS_LEN ->
     fst (on_trigger ZMK_KEYMAP_LAYERS_LEN v cfg param1 param2 now w) = 0).
Proof.
  rewrite on_trigger_mouse. unfold Mouse.auto_layer_handle_event.
  split; intros Hp.
  - destruct (Z.geb_spec param1 ZMK_KEYMAP_LAYERS_LEN); [reflexivity | lia].
  - destruct (Z.geb_spec param1 ZMK_KEYMAP_LAYERS_LEN); [lia | reflexivity].
Qed.

(** C6: when the guard applies, a trigger with a valid layer leaves the
    active flag and the set of active layers as they were, makes no call
    to the layer primitive, and, whenever the delay is positive, still
    reschedules the work of the target layer. *)
Theorem C6_suppressed_trigger_arms_timer v cfg param1 param2 now w :
  0 <= param1 < ZMK_KEYMAP_LAYERS_LEN ->
  Mouse.should_quick_tap cfg (data w) now = true ->
  let w' := snd (on_trigger ZMK_KEYMAP_LAYERS_LEN v cfg param1 param2 now w) in
  is_active (data w') = is_active (data w) /\
  layers w' = layers w /\
  Forall (fun c => is_layer_call c = false) (reschedule_calls param1 param2) /\
  trace w' = trace w ++ reschedule_calls param1 param2 /\
  (0 < param2 ->
     layer_disable_works w' = <[param1 := param2]> (layer_disable_works w) /\
     trace w' = trace w ++ [Reschedule param1 param2]).
Proof.
  intros Hp Hguard w'. subst w'.
  rewrite on_trigger_mouse, trigger_valid by assumption.
  rewrite Hguard, orb_true_r. cbv zeta. unfold reschedule_calls.
  destruct (Z.gtb_spec param2 0) as [Hpos|Hle]; cbn.
  - split; [reflexivity|]. split; [reflexivity|].
    split; [repeat constructor|]. auto.
  - rewrite app_nil_r. split; [reflexivity|]. split; [reflexivity|].
    split; [constructor|]. split; [reflexivity | lia].
Qed.

(** C7: a trigger with a zero delay leaves the pending works as they
    were, whatever its layer, and none of the calls it makes is a
    reschedule. *)
Theorem C7_zero_delay_keeps_schedule v cfg param1 now w :
  let w' := snd (on_trigger ZMK_KEYMAP_LAYERS_LEN v cfg param1 0 now w) in
  layer_disable_works w' = layer_disable_works w /\
  exists calls,
    trace w' = trace w ++ calls /\
    Forall (fun c => is_reschedule c = false) calls.
Proof.
  intros w'. subst w'. rewrite on_trigger_mouse.
  unfold Mouse.auto_layer_handle_event.
  destruct (param1 >=? ZMK_KEYMAP_LAYERS_LEN).
  - split; [reflexivity|]. exists []. rewrite app_nil_r. auto.
  - cbv zeta. change (0 >? 0) with false. cbn [snd].
    match goal with |- context [if ?c then _ else _] => destruct c end.
    + split; [reflexivity|]. eexists. split; [reflexivity|].
      constructor; [reflexivity | constructor].
    + split; [reflexivity|]. exists []. cbn. rewrite app_nil_r. auto.
Qed.

(** C9: a trigger with a valid layer records it as the target, also when
    the controller is already active; in that case the active flag, the
    timestamp of the last tap and the set of active layers stay as they
    were, and the only call that may be made is the reschedule. *)
Theorem C9_target_overwrite v cfg param1 param2 now w :
  0 <= param1 < ZMK_KEYMAP_LAYERS_LEN ->
  let r := on_trigger ZMK_KEYMAP_LAYERS_LEN v cfg param1 param2 now w in
  fst r = 0 /\
  toggle_layer (data (snd r)) = param1 /\
  (is_active (data w) = true ->
     is_active (data (snd r)) = true /\
     last_tapped_timestamp (data (snd r)) = last_tapped_timestamp (data w) /\
     layers (snd r) = layers w /\
     trace (snd r) = trace w ++ reschedule_calls param1 param2).
Proof.
  intros Hp r. subst r.
  rewrite on_trigger_mouse, trigger_valid by assumption.
  cbv zeta. cbn [fst snd]. split; [reflexivity|]. split.
  - destruct (is_active (data w) || _), (param2 >? 0); reflexivity.
  - intros Hact. rewrite Hact. cbn [orb]. unfold reschedule_calls.
    destruct (param2 >? 0); cbn; rewrite ?app_nil_r; auto.
Qed.

(** ** Keycode events (C10) *)

(** C10: the keycode handler changes at most the timestamp of the last
    tap: the target, the active flag, the set of active layers, the
    pending works and the calls made are as before, and the timestamp is
    the event's for a key-down of a non-modifier and the previous one in
    every other case. *)
Theorem C10_keycode_frame v ev w :
  let w' := on_keycode_changed is_mod v ev w in
  toggle_layer (data w') = toggle_layer (data w) /\
  is_active (data w') = is_active (data w) /\
  layers w' = layers w /\
  layer_disable_works w' = layer_disable_works w /\
  trace w' = trace w /\
  last_tapped_timestamp (data w')
  = if key_state ev && negb (is_mod (usage_page ev) (keycode ev))
    then timestamp ev
    else last_tapped_timestamp (data w).
Proof.
  destruct v; cbn [on_keycode_changed];
    [unfold Mouse.handle_keycode_state_changed
    |unfold Optimized.handle_keycode_state_changed];
    destruct (key_state ev), (is_mod (usage_page ev) (keycode ev));
    cbn; auto 10.
Qed.
End Claims.

(** ** The lookup in the excluded positions *)

Lemma scan_elem_of xs p : Mouse.scan xs p = true <-> p ∈ xs.
Proof.
  induction xs as [|x xs IH]; cbn.
  - split; [discriminate | intros H; inversion H].
  - destruct (Z.eqb_spec x p) as [->|Hne].
    + split; [intros _; constructor | reflexivity].
    + rewrite IH. split; [now constructor|].
      intros H. inversion H; subst; [congruence | assumption].
Qed.

Lemma scan_not_elem_of xs p : Mouse.scan xs p = false <-> p ∉ xs.
Proof.
  rewrite <- scan_elem_of. destruct (Mouse.scan xs p); split; congruence.
Qed.

Lemma linear_scan xs p : Optimized.linear xs p = Mouse.scan xs p.
Proof. induction xs as [|x xs IH]; cbn; [|rewrite IH]; reflexivity. Qed.

Lemma read_in_bounds xs i :
  0 <= i < Z.of_nat (length xs) ->
  exists x, Optimized.read xs i = Some x /\ xs !! Z.to_nat i = Some x.
Proof.
  intros Hi. unfold Optimized.read.
  destruct (Z.ltb_spec i (Z.of_nat (length xs))) as [_|Hge]; [|lia].
  destruct (lookup_lt_is_Some_2 xs (Z.to_nat i)) as [x Hx]; [lia|].
  exists x. auto.
Qed.

Lemma read_out_of_bounds xs i :
  Z.of_nat (length xs) <= i -> Optimized.read xs i = None.
Proof.
  intros Hi. unfold Optimized.read.
  destruct (Z.ltb_spec i (Z.of_nat (length xs))); [lia | reflexivity].
Qed.

Lemma sorted_lookup xs : StronglySorted Z.le xs ->
  forall i j x y, (i <= j)%nat ->
    xs !! i = Some x -> xs !! j = Some y -> x <= y.
Proof.
  induction 1 as [|a xs Hs IH Hall]; intros i j x y Hij Hi Hj.
  - discriminate.
  - destruct i as [|i], j as [|j]; cbn in Hi, Hj.
    + injection Hi as <-. injection Hj as <-. lia.
    + injection Hi as <-. rewrite Forall_forall in Hall.
      apply Hall. apply list_elem_of_lookup. eauto.
    + lia.
    + apply (IH i j); [lia | assumption | assumption].
Qed.

Lemma mid_between left right :
  0 <= left <= right -> right < 2 ^ 31 ->
  left <= size_t (left + right) / 2 <= right.
Proof.
  intros Hlr Hr. rewrite size_t_id by lia.
  split; [apply Z.div_le_lower_bound | apply Z.div_le_upper_bound]; lia.
Qed.

(** The loop never runs out of the fuel that [position_is_excluded] gives
    it: every iteration returns, narrows the interval, or wraps [right]
    around, after which the next read is outside the array. *)
Lemma bsearch_fuel xs p :
  Z.of_nat (length xs) < 2 ^ 31 ->
  forall fuel left right,
    0 <= left <= right + 1 -> right < Z.of_nat (length xs) ->
    right - left + 1 < Z.of_nat fuel ->
    Optimized.bsearch fuel xs p left right <> OutOfFuel.
Proof.
  intros Hn. induction fuel as [|fuel IH]; intros left right Hl Hr Hfuel.
  - lia.
  - cbn [Optimized.bsearch].
    destruct (Z.leb_spec left right) as [Hle|Hgt]; [|discriminate].
    cbv zeta.
    pose proof (mid_between left right ltac:(lia) ltac:(lia)) as Hmid.
    set (mid := size_t (left + right) / 2) in *.
    destruct (read_in_bounds xs mid ltac:(lia)) as (x & -> & _).
    destruct (x =? p); [discriminate|].
    destruct (x <? p).
    + rewrite size_t_id by lia. apply IH; lia.
    + destruct (Z.eq_dec mid 0) as [Hz|Hnz].
      * rewrite Hz. change (size_t (0 - 1)) with SIZE_MAX.
        assert (left = 0) as -> by lia.
        destruct fuel as [|fuel]; [lia|].
        cbn [Optimized.bsearch]. change (0 <=? SIZE_MAX) with true.
        cbv iota zeta.
        change (size_t (0 + SIZE_MAX) / 2) with (2 ^ 31 - 1).
        rewrite read_out_of_bounds by lia. discriminate.
      * rewrite size_t_id by lia. apply IH; lia.
Qed.

(** On a sorted array the binary search is the membership test, provided
    the position is not below the first entry. *)
Lemma bsearch_sorted xs p :
  StronglySorted Z.le xs ->
  Z.of_nat (length xs) < 2 ^ 31 ->
  (forall x, xs !! 0%nat = Some x -> x <= p) ->
  forall fuel left right,
    0 <= left -> 0 <= right < Z.of_nat (length xs) -> left <= right + 1 ->
    right - left + 1 < Z.of_nat fuel ->
    (forall i x, Z.of_nat i < left -> xs !! i = Some x -> x < p) ->
    (forall i x, right < Z.of_nat i -> xs !! i = Some x -> p < x) ->
    Optimized.bsearch fuel xs p left right = Returns (Mouse.scan xs p).
Proof.
  intros Hs Hn Hhead.
  induction fuel as [|fuel IH]; intros left right Hl Hr Hlr Hfuel Hlo Hhi.
  - lia.
  - cbn [Optimized.bsearch].
    destruct (Z.leb_spec left right) as [Hle|Hgt].
    + cbv zeta.
      pose proof (mid_between left right ltac:(lia) ltac:(lia)) as Hmid.
      set (mid := size_t (left + right) / 2) in *.
      destruct (read_in_bounds xs mid ltac:(lia)) as (x & -> & Hx).
      destruct (Z.eqb_spec x p) as [->|Hne].
      * f_equal. symmetry. apply scan_elem_of.
        apply list_elem_of_lookup. eauto.
      * destruct (Z.ltb_spec x p) as [Hlt|Hge].
        -- rewrite size_t_id by lia. apply IH; try lia; [|assumption].
           intros i y Hi Hy.
           pose proof (sorted_lookup xs Hs i (Z.to_nat mid) y x
                         ltac:(lia) Hy Hx). lia.
        -- assert (Hpos : 0 < mid).
           { destruct (Z.eq_dec mid 0) as [Hz|]; [|lia].
             rewrite Hz in Hx. apply Hhead in Hx. lia. }
           rewrite size_t_id by lia. apply IH; try lia; [assumption|].
           intros i y Hi Hy.
           pose proof (sorted_lookup xs Hs (Z.to_nat mid) i x y
                         ltac:(lia) Hx Hy). lia.
    + f_equal. symmetry. apply scan_not_elem_of.
      intros Hin. apply list_elem_of_lookup in Hin as [i Hi].
      destruct (Z.lt_ge_cases (Z.of_nat i) left) as [Hlow|Hhigh].
      * pose proof (Hlo i p Hlow Hi). lia.
      * pose proof (Hhi i p ltac:(lia) Hi). lia.
Qed.

(** Below the first entry of a sorted array the binary search always ends
    with [mid = 0], wraps [right] around and reads outside the array. *)
Lemma bsearch_below_first xs p :
  Z.of_nat (length xs) < 2 ^ 31 ->
  (forall i x, xs !! i = Some x -> p < x) ->
  forall fuel right,
    0 <= right < Z.of_nat (length xs) ->
    right + 1 < Z.of_nat fuel ->
    Optimized.bsearch fuel xs p 0 right = OutOfBounds.
Proof.
  intros Hn Hall. induction fuel as [|fuel IH]; intros right Hr Hfuel.
  - lia.
  - cbn [Optimized.bsearch].
    destruct (Z.leb_spec 0 right) as [_|Hgt]; [|lia].
    cbv zeta.
    pose proof (mid_between 0 right ltac:(lia) ltac:(lia)) as Hmid.
    set (mid := size_t (0 + right) / 2) in *.
    destruct (read_in_bounds xs mid ltac:(lia)) as (x & -> & Hx).
    apply Hall in Hx.
    destruct (Z.eqb_spec x p) as [->|_]; [lia|].
    destruct (Z.ltb_spec x p) as [Hlt|_]; [lia|].
    destruct (Z.eq_dec mid 0) as [Hz|Hnz].
    + rewrite Hz. change (size_t (0 - 1)) with SIZE_MAX.
      destruct fuel as [|fuel]; [lia|].
      cbn [Optimized.bsearch]. change (0 <=? SIZE_MAX) with true.
      cbv iota zeta.
      change (size_t (0 + SIZE_MAX) / 2) with (2 ^ 31 - 1).
      now rewrite read_out_of_bounds by lia.
    + rewrite size_t_id by lia. apply IH; lia.
Qed.

Lemma position_is_excluded_total cfg p :
  num_positions cfg < 2 ^ 31 ->
  Optimized.position_is_excluded cfg p <> OutOfFuel.
Proof.
  intros Hn. unfold Optimized.position_is_excluded, num_positions in *.
  destruct (_ =? 0); [discriminate|].
  destruct (Z.gtb_spec (Z.of_nat (length (excluded_positions cfg)))
              Optimized.SMALL_ARRAY_THRESHOLD) as [Hbig|_]; [|discriminate].
  unfold Optimized.SMALL_ARRAY_THRESHOLD in Hbig.
  apply bsearch_fuel; lia.
Qed.

Lemma position_is_excluded_small cfg p :
  num_positions cfg <= Optimized.SMALL_ARRAY_THRESHOLD ->
  Optimized.position_is_excluded cfg p
  = Returns (Mouse.is_position_excluded cfg p).
Proof.
  intros Hn. unfold Optimized.position_is_excluded, Mouse.is_position_excluded.
  unfold num_positions in *.
  destruct (Z.eqb_spec (Z.of_nat (length (excluded_positions cfg))) 0)
    as [Hz|_].
  - destruct (excluded_positions cfg); [reflexivity | discriminate].
  - destruct (Z.gtb_spec (Z.of_nat (length (excluded_positions cfg)))
                Optimized.SMALL_ARRAY_THRESHOLD); [lia|].
    now rewrite linear_scan.
Qed.

Lemma position_is_excluded_sorted cfg p :
  StronglySorted Z.le (excluded_positions cfg) ->
  num_positions cfg < 2 ^ 31 ->
  (forall x, excluded_positions cfg !! 0%nat = Some x -> x <= p) ->
  Optimized.position_is_excluded cfg p
  = Returns (Mouse.is_position_excluded cfg p).
Proof.
  intros Hs Hn Hhead.
  destruct (Z.le_gt_cases (num_positions cfg) Optimized.SMALL_ARRAY_THRESHOLD)
    as [Hsmall|Hbig]; [now apply position_is_excluded_small|].
  unfold Optimized.position_is_excluded, Mouse.is_position_excluded.
  unfold num_positions, Optimized.SMALL_ARRAY_THRESHOLD in *.
  destruct (Z.eqb_spec (Z.of_nat (length (excluded_positions cfg))) 0);
    [lia|].
  destruct (Z.gtb_spec (Z.of_nat (length (excluded_positions cfg))) 8);
    [|lia].
  apply bsearch_sorted; try assumption; try lia.
  intros i x Hi Hx. apply lookup_lt_Some in Hx. lia.
Qed.

Lemma position_is_excluded_below cfg p :
  Optimized.SMALL_ARRAY_THRESHOLD < num_positions cfg < 2 ^ 31 ->
  (forall i x, excluded_positions cfg !! i = Some x -> p < x) ->
  Optimized.position_is_excluded cfg p = OutOfBounds.
Proof.
  intros Hn Hall. unfold Optimized.position_is_excluded.
  unfold num_positions, Optimized.SMALL_ARRAY_THRESHOLD in *.
  destruct (Z.eqb_spec (Z.of_nat (length (excluded_positions cfg))) 0);
    [lia|].
  destruct (Z.gtb_spec (Z.of_nat (length (excluded_positions cfg))) 8);
    [|lia].
  apply bsearch_below_first; try assumption; lia.
Qed.

(** An empty configuration excludes nothing, on either path. *)
Lemma empty_not_excluded T p :
  let cfg := {| require_prior_idle_ms := T; excluded_positions := [] |} in
  Mouse.is_position_excluded cfg p = false /\
  Optimized.position_is_excluded cfg p = Returns false.
Proof. split; reflexivity. Qed.

(** ** Position events *)

Lemma mouse_position_rule cfg ev w :
  Mouse.handle_position_state_changed cfg ev w
  = if pos_state ev && is_active (data w)
       && negb (bool_decide (position ev ∈ excluded_positions cfg))
    then zmk_keymap_layer_deactivate (toggle_layer (data w))
           (set_is_active false w)
    else w.
Proof.
  unfold Mouse.handle_position_state_changed, Mouse.is_position_excluded.
  destruct (Mouse.scan (excluded_positions cfg) (position ev)) eqn:Hscan.
  - apply scan_elem_of in Hscan. now rewrite bool_decide_eq_true_2.
  - apply scan_not_elem_of in Hscan. now rewrite bool_decide_eq_false_2.
Qed.

Lemma position_ignored v cfg ev w :
  pos_state ev = false \/ is_active (data w) = false ->
  on_position_changed v cfg ev w = Returns w.
Proof.
  intros H. destruct v; cbn [on_position_changed].
  - unfold lift, Mouse.handle_position_state_changed.
    destruct H as [-> | ->]; [|rewrite andb_false_r]; reflexivity.
  - unfold Optimized.handle_position_state_changed.
    destruct H as [-> | ->]; [reflexivity|].
    now destruct (negb (pos_state ev)).
Qed.

(** Where the lookup of the optimized variant is the membership test, its
    position handler does what the plain one does. *)
Lemma optimized_position_rule cfg ev w :
  Optimized.position_is_excluded cfg (position ev)
  = Returns (Mouse.is_position_excluded cfg (position ev)) ->
  Optimized.handle_position_state_changed cfg ev w
  = Returns (Mouse.handle_position_state_changed cfg ev w).
Proof.
  intros Hlookup.
  unfold Optimized.handle_position_state_changed,
    Mouse.handle_position_state_changed.
  destruct (pos_state ev); cbn [negb andb]; [|reflexivity].
  destruct (is_active (data w)) eqn:Hact; cbn [andb]; [|reflexivity].
  rewrite Hlookup.
  destruct (Mouse.is_position_excluded cfg (position ev)); cbn [negb];
    [reflexivity|].
  now rewrite update_layer_state_deactivate.
Qed.

(** ** The deferred deactivation *)

Lemma optimized_timer_rule layer_index w :
  Optimized.layer_disable_callback layer_index w
  = if zmk_keymap_layer_active layer_index w && is_active (data w)
    then zmk_keymap_layer_deactivate (toggle_layer (data w))
           (set_is_active false w)
    else w.
Proof.
  unfold Optimized.layer_disable_callback.
  destruct (zmk_keymap_layer_active layer_index w); cbn [andb]; [|reflexivity].
  destruct (is_active (data w)) eqn:Hact.
  - now apply update_layer_state_deactivate.
  - rewrite <- Hact at 1. apply update_layer_state_same.
Qed.

Lemma timer_noop_layer_inactive v layer_index w :
  layer_index ∉ layers w -> on_deactivation_timer v layer_index w = w.
Proof.
  intros Hl.
  assert (Hoff : zmk_keymap_layer_active layer_index w = false)
    by now apply bool_decide_eq_false_2.
  destruct v; cbn [on_deactivation_timer];
    [unfold Mouse.layer_disable_cb | unfold Optimized.layer_disable_callback];
    now rewrite Hoff.
Qed.

(** After a position event has deactivated the target, the timer of that
    layer finds it inactive and does nothing. *)
Lemma timer_after_deactivation v w :
  let w' := zmk_keymap_layer_deactivate (toggle_layer (data w))
              (set_is_active false w) in
  on_deactivation_timer v (toggle_layer (data w)) w' = w'.
Proof.
  intros w'. apply timer_noop_layer_inactive. subst w'. cbn.
  rewrite elem_of_difference, elem_of_singleton. tauto.
Qed.

(** ** The timestamp of the last tap along a run *)

Ltac case_ifs :=
  repeat match goal with
         | |- context [if ?c then _ else _] => destruct c
         end.

Lemma trigger_last_tapped len cfg param1 param2 now w :
  last_tapped_timestamp
    (data (snd (Mouse.auto_layer_handle_event len cfg param1 param2 now w)))
  = last_tapped_timestamp (data w).
Proof. unfold Mouse.auto_layer_handle_event. cbv zeta. case_ifs; reflexivity. Qed.

Lemma position_last_tapped v cfg ev w w' :
  on_position_changed v cfg ev w = Returns w' ->
  last_tapped_timestamp (data w') = last_tapped_timestamp (data w).
Proof.
  destruct v; cbn [on_position_changed]; unfold lift.
  - intros [= <-]. unfold Mouse.handle_position_state_changed.
    case_ifs; reflexivity.
  - unfold Optimized.handle_position_state_changed,
      Optimized.update_layer_state.
    destruct (Optimized.position_is_excluded cfg (position ev)) as [b| |];
      case_ifs; intros [= <-]; reflexivity.
Qed.

Lemma timer_last_tapped v layer_index w :
  last_tapped_timestamp
    (data (k_work_expire (on_deactivation_timer v) layer_index w))
  = last_tapped_timestamp (data w).
Proof.
  unfold k_work_expire.
  destruct v; cbn [on_deactivation_timer];
    [unfold Mouse.layer_disable_cb
    |unfold Optimized.layer_disable_callback, Optimized.update_layer_state];
    case_ifs; reflexivity.
Qed.

(** Every entry point leaves the timestamp as it was, except the keycode
    handler on a non-modifier key-down, which stores the timestamp of the
    event. *)
Lemma on_event_last_tap len is_mod v cfg e w w' :
  on_event len is_mod v cfg e w = Returns w' ->
  last_tapped_timestamp (data w')
  = latest (last_tapped_timestamp (data w)) (tap_timestamps is_mod [e]).
Proof.
  intros Hstep.
  assert (Hsame : on_event len is_mod v cfg e w
    = match e with
      | Trigger param1 param2 now =>
          Returns (snd (on_trigger len v cfg param1 param2 now w))
      | PositionChanged ev => on_position_changed v cfg ev w
      | KeycodeChanged ev => Returns (on_keycode_changed is_mod v ev w)
      | WorkExpired layer_index =>
          Returns (k_work_expire (on_deactivation_timer v) layer_index w)
      end) by (destruct v, e; reflexivity).
  rewrite Hsame in Hstep. clear Hsame.
  destruct e as [param1 param2 now | ev | ev | layer_index];
    cbn [tap_timestamps latest].
  - injection Hstep as <-.
    rewrite on_trigger_mouse. apply trigger_last_tapped.
  - eapply position_last_tapped; eassumption.
  - injection Hstep as <-. rewrite on_keycode_mouse.
    unfold Mouse.handle_keycode_state_changed, is_tap.
    destruct (key_state ev && negb (is_mod (usage_page ev) (keycode ev)));
      reflexivity.
  - injection Hstep as <-. apply timer_last_tapped.
Qed.

Lemma on_events_cons len is_mod v cfg e es w :
  on_events len is_mod v cfg (e :: es) w
  = match on_event len is_mod v cfg e w with
    | Returns w' => on_events len is_mod v cfg es w'
    | OutOfBounds => OutOfBounds
    | OutOfFuel => OutOfFuel
    end.
Proof. destruct v; reflexivity. Qed.

Lemma on_events_nil len is_mod v cfg w :
  on_events len is_mod v cfg [] w = Returns w.
Proof. destruct v; reflexivity. Qed.

Lemma on_events_app len is_mod v cfg es1 es2 w :
  on_events len is_mod v cfg (es1 ++ es2) w
  = match on_events len is_mod v cfg es1 w with
    | Returns w1 => on_events len is_mod v cfg es2 w1
    | OutOfBounds => OutOfBounds
    | OutOfFuel => OutOfFuel
    end.
Proof.
  revert w. induction es1 as [|e es1 IH]; intros w.
  - now rewrite on_events_nil.
  - cbn [app]. rewrite !on_events_cons.
    destruct (on_event len is_mod v cfg e w); [apply IH | reflexivity..].
Qed.

(** The plain implementation always returns. *)
Lemma mouse_events_return len is_mod cfg es w :
  exists w', on_events len is_mod mouse cfg es w = Returns w'.
Proof. eexists. reflexivity. Qed.

Lemma tap_timestamps_cons is_mod e es :
  tap_timestamps is_mod (e :: es)
  = tap_timestamps is_mod [e] ++ tap_timestamps is_mod es.
Proof.
  destruct e as [| |ev|]; cbn [tap_timestamps]; try reflexivity.
  destruct (is_tap is_mod ev); reflexivity.
Qed.

Lemma tap_timestamps_app is_mod es1 es2 :
  tap_timestamps is_mod (es1 ++ es2)
  = tap_timestamps is_mod es1 ++ tap_timestamps is_mod es2.
Proof.
  induction es1 as [|e es1 IH]; [reflexivity|].
  cbn [app]. rewrite (tap_timestamps_cons is_mod e (es1 ++ es2)), IH.
  rewrite (tap_timestamps_cons is_mod e es1). now rewrite app_assoc.
Qed.

Lemma latest_app t ts1 ts2 :
  latest t (ts1 ++ ts2) = latest (latest t ts1) ts2.
Proof.
  revert t. induction ts1 as [|x ts1 IH]; intros t; [reflexivity|].
  cbn [app latest]. apply IH.
Qed.

Lemma ascending_latest ts :
  forall t, ascending t ts = true -> t <= latest t ts.
Proof.
  induction ts as [|x ts IH]; intros t; cbn [ascending latest]; [lia|].
  intros [Hx Hrest]%andb_prop. apply Z.leb_le in Hx.
  specialize (IH x Hrest). lia.
Qed.

Lemma ascending_app ts1 ts2 :
  forall t, ascending t (ts1 ++ ts2) = true ->
            ascending t ts1 = true /\ ascending (latest t ts1) ts2 = true.
Proof.
  induction ts1 as [|x ts1 IH]; intros t; cbn [app ascending latest].
  - auto.
  - intros [Hx Hrest]%andb_prop. rewrite Hx. cbn [andb]. now apply IH.
Qed.

(** After a run the timestamp of the last tap is the timestamp of the
    last non-modifier key-down of the run, or the one it started with. *)
Lemma on_events_last_tap len is_mod v cfg es :
  forall w w',
    on_events len is_mod v cfg es w = Returns w' ->
    last_tapped_timestamp (data w')
    = latest (last_tapped_timestamp (data w)) (tap_timestamps is_mod es).
Proof.
  induction es as [|e es IH]; intros w w' Hrun.
  - rewrite on_events_nil in Hrun. now injection Hrun as <-.
  - rewrite on_events_cons in Hrun.
    destruct (on_event len is_mod v cfg e w) as [w1| |] eqn:Hstep;
      try discriminate.
    rewrite tap_timestamps_cons, latest_app.
    rewrite <- (on_event_last_tap _ _ _ _ _ _ _ Hstep). now apply IH.
Qed.

(** ** Monotonicity of the last tap (C8) *)

(** C8, as amended: the timestamp of the last tap is written only by the
    keycode handler, which copies the timestamp of the event on a
    non-modifier key-down: after every sequence of entry-point invocations
    its value is the timestamp of the last such key-down of the sequence,
    or the initial value when there is none.  Hence, whenever the
    non-modifier key-downs carry timestamps that never go back in time
    (starting from the stored one), it never decreases: its value after
    any prefix is at least the initial one and at most its value after
    the whole sequence.  Key-ups and modifier key-downs may carry any
    timestamp. *)
Theorem C8_last_tap_monotone len is_mod v cfg es1 es2 w w1 w2 :
  on_events len is_mod v cfg es1 w = Returns w1 ->
  on_events len is_mod v cfg (es1 ++ es2) w = Returns w2 ->
  last_tapped_timestamp (data w2)
  = latest (last_tapped_timestamp (data w))
      (tap_timestamps is_mod (es1 ++ es2)) /\
  (ascending (last_tapped_timestamp (data w))
     (tap_timestamps is_mod (es1 ++ es2)) = true ->
   last_tapped_timestamp (data w) <= last_tapped_timestamp (data w1) /\
   last_tapped_timestamp (data w1) <= last_tapped_timestamp (data w2)).
Proof.
  intros Hrun1 Hrun2.
  pose proof (on_events_last_tap _ _ _ _ _ _ _ Hrun1) as Hlast1.
  pose proof (on_events_last_tap _ _ _ _ _ _ _ Hrun2) as Hlast2.
  split; [exact Hlast2|].
  rewrite Hlast1, Hlast2, tap_timestamps_app, latest_app.
  intros [Hasc1 Hasc2]%ascending_app.
  split; now apply ascending_latest.
Qed.

(** The optimized implementation never stops for lack of fuel. *)
Lemma optimized_events_fuel len is_mod cfg es w :
  num_positions cfg < 2 ^ 31 ->
  on_events len is_mod optimized cfg es w <> OutOfFuel.
Proof.
  intros Hn. revert w. induction es as [|e es IH]; intros w.
  - discriminate.
  - rewrite on_events_cons.
    destruct (on_event len is_mod optimized cfg e w) as [w'| |] eqn:Hstep;
      [apply IH | discriminate |].
    exfalso. destruct e as [| ev | |]; try discriminate Hstep.
    cbn in Hstep. unfold Optimized.handle_position_state_changed in Hstep.
    pose proof (position_is_excluded_total cfg (position ev) Hn) as Htot.
    destruct (Optimized.position_is_excluded cfg (position ev));
      [| |contradiction]; revert Hstep; case_ifs; discriminate.
Qed.

(** ** The claims on concrete inputs *)

(** C1, the claim as stated: with a tap at 1000 and a threshold of 150, a
    trigger at 1150 lies in the interval (1000, 1150] where the claim
    promises that nothing is activated; both implementations activate
    layer 2. *)
Lemma C1_activates_at_boundary :
  let tapped v := on_keycode_changed hid_is_mod v (key_down 4 1000) world0 in
  let w' v := snd (on_trigger 4 v cfg_scenario 2 300 1150 (tapped v)) in
  1000 < 1150 <= 1000 + require_prior_idle_ms cfg_scenario /\
  is_active (data (w' mouse)) = true /\
  trace (w' mouse) = [Activate 2; Reschedule 2 300] /\
  is_active (data (w' optimized)) = true /\
  trace (w' optimized) = [Activate 2; Reschedule 2 300].
Proof. cbn. repeat split; lia. Qed.

Lemma C1_quick_tap_boundary_witness :
  let tapped := on_keycode_changed hid_is_mod optimized (key_down 4 1000)
                  world0 in
  is_active (data (snd (on_trigger 4 optimized cfg_scenario 2 300 1100 tapped)))
  = false /\
  is_active (data (snd (on_trigger 4 optimized cfg_scenario 2 300 1200 tapped)))
  = true.
Proof.
  intros tapped.
  pose proof (C1_quick_tap_boundary 4 hid_is_mod ltac:(lia) optimized
                cfg_scenario (key_down 4 1000) 2 300) as H.
  split.
  - refine (proj1 (proj1 (H 1100 world0 _ _ _ _ _) _));
      try reflexivity; cbn; unfold in_int64; lia.
  - refine (proj1 (proj2 (H 1200 world0 _ _ _ _ _) _));
      try reflexivity; cbn; unfold in_int64; lia.
Defined.

Lemma C4_invalid_argument_witness :
  on_trigger 4 optimized cfg_scenario 4 300 1200 (active_on 1)
  = (- EINVAL, active_on 1) /\
  fst (on_trigger 4 mouse cfg_scenario 3 300 1200 (active_on 1)) = 0.
Proof.
  split.
  - apply (proj1 (C4_invalid_argument 4 optimized cfg_scenario 4 300 1200
                    (active_on 1))). lia.
  - apply (proj2 (C4_invalid_argument 4 mouse cfg_scenario 3 300 1200
                    (active_on 1))). lia.
Defined.

Lemma C6_suppressed_trigger_arms_timer_witness :
  let tapped := on_keycode_changed hid_is_mod mouse (key_down 4 1000) world0 in
  let w' := snd (on_trigger 4 mouse cfg_scenario 2 300 1100 tapped) in
  is_active (data w') = false /\
  layer_disable_works w' = <[2 := 300]> ∅ /\
  trace w' = [Reschedule 2 300].
Proof.
  intros tapped w'.
  destruct (C6_suppressed_trigger_arms_timer 4 ltac:(lia) mouse cfg_scenario
              2 300 1100 tapped ltac:(lia) eq_refl)
    as (Hact & _ & _ & _ & Harm).
  destruct (Harm ltac:(lia)) as [Hworks Htrace].
  split; [exact Hact|]. split; [exact Hworks | exact Htrace].
Defined.

Lemma C9_target_overwrite_witness :
  let r := on_trigger 4 optimized cfg_scenario 3 0 1200 (active_on 1) in
  toggle_layer (data (snd r)) = 3 /\
  layers (snd r) = {[1]} /\
  trace (snd r) = [].
Proof.
  intros r.
  destruct (C9_target_overwrite 4 ltac:(lia) optimized cfg_scenario 3 0 1200
              (active_on 1) ltac:(lia))
    as (_ & Htarget & Hframe).
  destruct (Hframe eq_refl) as (_ & _ & Hlayers & Htrace).
  split; [exact Htarget|]. split; [exact Hlayers | exact Htrace].
Defined.

(** C7 on the example of the specification: a trigger with a delay of 1000
    followed by one with a delay of 0 leaves the work of layer 2 pending
    with its delay of 1000. *)
Example zero_delay_keeps_pending_work :
  let w := snd (on_trigger 4 mouse cfg_scenario 2 1000 500 world0) in
  let w' := snd (on_trigger 4 mouse cfg_scenario 2 0 600 w) in
  layer_disable_works w' !! 2 = Some 1000 /\
  trace w' = [Activate 2; Reschedule 2 1000].
Proof. split; reflexivity. Qed.

(** C8, the claim as stated: a tap stamped 1000 followed by a tap stamped
    500 moves the timestamp of the last tap back from 1000 to 500, in both
    implementations. *)
Lemma C8_last_tap_goes_back :
  let e1 := KeycodeChanged (key_down 4 1000) in
  let e2 := KeycodeChanged (key_down 5 500) in
  last_tap_after mouse cfg_scenario [e1] = Some 1000 /\
  last_tap_after mouse cfg_scenario [e1; e2] = Some 500 /\
  last_tap_after optimized cfg_scenario [e1] = Some 1000 /\
  last_tap_after optimized cfg_scenario [e1; e2] = Some 500.
Proof. repeat split; reflexivity. Qed.

Lemma C8_last_tap_monotone_witness :
  let w1 := Mouse.run 4 hid_is_mod cfg_scenario scenario_start world0 in
  let w2 := Mouse.run 4 hid_is_mod cfg_scenario
              (scenario_start ++ scenario_unstored) world0 in
  last_tapped_timestamp (data w2) = 1400 /\
  0 <= last_tapped_timestamp (data w1) /\
  last_tapped_timestamp (data w1) <= last_tapped_timestamp (data w2).
Proof.
  intros w1 w2.
  destruct (C8_last_tap_monotone 4 hid_is_mod optimized cfg_scenario
              scenario_start scenario_unstored world0 w1 w2 eq_refl eq_refl)
    as [Hlatest Hmono].
  split; [exact Hlatest | exact (Hmono eq_refl)].
Defined.

(** C2 on the optimized implementation, whose position handler relies on
    the binary search.  With the nine sorted entries 1..9 and the
    controller active, a press at position 0 (not excluded) makes the
    search wrap [right] around and read outside the array instead of
    deactivating; with the same entries in descending order, a press at
    the excluded position 9 deactivates the target.  The plain
    implementation follows the rule on both inputs. *)
Theorem C2_position_rule_diverges :
  let off := zmk_keymap_layer_deactivate 2 (set_is_active false (active_on 2)) in
  ((0 ∉ excluded_positions cfg_sorted9) /\
   on_position_changed optimized cfg_sorted9 (press 0) (active_on 2)
   = OutOfBounds /\
   on_position_changed mouse cfg_sorted9 (press 0) (active_on 2)
   = Returns off) /\
  ((9 ∈ excluded_positions cfg_unsorted9) /\
   on_position_changed optimized cfg_unsorted9 (press 9) (active_on 2)
   = Returns off /\
   on_position_changed mouse cfg_unsorted9 (press 9) (active_on 2)
   = Returns (active_on 2)).
Proof.
  intros off. split; split.
  - apply scan_not_elem_of. reflexivity.
  - split; reflexivity.
  - apply scan_elem_of. reflexivity.
  - split; reflexivity.
Qed.

(** C3 on the plain implementation, whose timer callback does not look at
    the controller's own flag: the controller is idle (its trigger was
    suppressed), layer 1 is held active by another behaviour, and the
    pending work of layer 1 expires.  The callback deactivates layer 1;
    the optimized implementation leaves it alone. *)
Theorem C3_timer_ignores_flag :
  let w := held_elsewhere in
  let plain := k_work_expire (on_deactivation_timer mouse) 1 w in
  let other := k_work_expire (on_deactivation_timer optimized) 1 w in
  is_active (data w) = false /\
  zmk_keymap_layer_active 1 w = true /\
  layer_disable_works w !! 1 = Some 300 /\
  trace plain = trace w ++ [Deactivate 1] /\
  layers plain = ∅ /\
  trace other = trace w /\
  layers other = {[1]}.
Proof. repeat split; reflexivity. Qed.

(** C5: the two paths of the lookup on the same nine entries.  Sorted,
    position 0: the linear scan answers "not excluded", the binary search
    reads outside the array.  In descending order, position 9: the linear
    scan answers "excluded", the binary search "not excluded". *)
Theorem C5_lookup_paths_differ :
  (Optimized.linear (excluded_positions cfg_sorted9) 0 = false /\
   Optimized.position_is_excluded cfg_sorted9 0 = OutOfBounds) /\
  (Optimized.linear (excluded_positions cfg_unsorted9) 9 = true /\
   Optimized.position_is_excluded cfg_unsorted9 9 = Returns false).
Proof. repeat split; reflexivity. Qed.

(** ** Further examples *)

(** When it acts, the timer callback of the optimized implementation
    deactivates the current target, not the layer whose work expired: the
    work of layer 1 expires after the target was overwritten with 2. *)
Example optimized_timer_deactivates_target :
  let w := snd (on_trigger 4 optimized cfg_scenario 2 0 1200 (active_on 1)) in
  let w' := k_work_expire (on_deactivation_timer optimized) 1 w in
  toggle_layer (data w) = 2 /\
  trace w' = [Deactivate 2] /\
  layers w' = {[1]} /\
  is_active (data w') = false.
Proof. repeat split; reflexivity. Qed.

(** Initialisation leaves the controller idle with a zero timestamp and no
    pending work. *)
Lemma auto_layer_init_idle w :
  let a := Mouse.auto_layer_init w in
  let b := Optimized.auto_layer_init w in
  (is_active (data a) = false /\ last_tapped_timestamp (data a) = 0 /\
   layer_disable_works a = ∅) /\
  (is_active (data b) = false /\ last_tapped_timestamp (data b) = 0 /\
   layer_disable_works b = ∅).
Proof. repeat split; reflexivity. Qed.

(** The first scenario of the specification: threshold 150, exclusion set
    {3, 4}, tap at 1000; the trigger at 1100 is suppressed, the one at 1200
    activates layer 2, the press at 4 keeps it and the press at 5 ends
    it. *)
Example spec_scenario :
  forall v,
    exists w,
      on_events 4 hid_is_mod v cfg_scenario
        (scenario_start ++ scenario_rest) world0 = Returns w /\
      trace w = [Reschedule 2 300; Activate 2; Reschedule 2 300; Deactivate 2] /\
      is_active (data w) = false /\
      layers w = ∅ /\
      layer_disable_works w !! 2 = Some 300.
Proof. intros []; eexists; repeat split; reflexivity. Qed.

(** The second scenario: no exclusion, threshold 0; a trigger for layer 0
    with no delay at time 0 activates at once and arms nothing. *)
Example spec_scenario_no_threshold :
  forall v,
    let cfg := {| require_prior_idle_ms := 0; excluded_positions := [] |} in
    let w := snd (on_trigger 4 v cfg 0 0 0 world0) in
    is_active (data w) = true /\
    trace w = [Activate 0] /\
    layer_disable_works w = ∅ /\
    on_position_changed v cfg (press 7) w
    = Returns (zmk_keymap_layer_deactivate 0 (set_is_active false w)).
Proof. intros []; repeat split; reflexivity. Qed.

(** * Further properties of the code *)

(** ** The lookup *)

(** X1: the linear scan of the plain implementation is the membership
    test of the configured list, whatever its order and its duplicates. *)
Theorem X1_linear_scan_membership cfg p :
  Mouse.is_position_excluded cfg p
  = bool_decide (p ∈ excluded_positions cfg).
Proof.
  unfold Mouse.is_position_excluded.
  destruct (Mouse.scan (excluded_positions cfg) p) eqn:Hscan; symmetry.
  - apply bool_decide_eq_true_2. now apply scan_elem_of.
  - apply bool_decide_eq_false_2. now apply scan_not_elem_of.
Qed.

(** X2: up to [SMALL_ARRAY_THRESHOLD] entries the optimized lookup takes
    the linear path and is the membership test, in any order. *)
Theorem X2_small_array_lookup cfg p :
  num_positions cfg <= Optimized.SMALL_ARRAY_THRESHOLD ->
  Optimized.position_is_excluded cfg p
  = Returns (bool_decide (p ∈ excluded_positions cfg)).
Proof.
  intros Hn. rewrite position_is_excluded_small by assumption.
  f_equal. unfold Mouse.is_position_excluded.
  destruct (Mouse.scan (excluded_positions cfg) p) eqn:Hscan; symmetry.
  - apply bool_decide_eq_true_2. now apply scan_elem_of.
  - apply bool_decide_eq_false_2. now apply scan_not_elem_of.
Qed.

Lemma X2_small_array_lookup_witness :
  Optimized.position_is_excluded cfg_scenario 4
  = Returns (bool_decide (4 ∈ excluded_positions cfg_scenario)).
Proof.
  apply (X2_small_array_lookup cfg_scenario 4).
  unfold num_positions, Optimized.SMALL_ARRAY_THRESHOLD. cbn. lia.
Defined.

(** X3: on a sorted list the optimized lookup is the membership test for
    every position that is not below the first entry. *)
Theorem X3_binary_search_sorted cfg p :
  StronglySorted Z.le (excluded_positions cfg) ->
  num_positions cfg < 2 ^ 31 ->
  (forall x, excluded_positions cfg !! 0%nat = Some x -> x <= p) ->
  Optimized.position_is_excluded cfg p
  = Returns (bool_decide (p ∈ excluded_positions cfg)).
Proof.
  intros Hs Hn Hhead. rewrite position_is_excluded_sorted by assumption.
  f_equal. unfold Mouse.is_position_excluded.
  destruct (Mouse.scan (excluded_positions cfg) p) eqn:Hscan; symmetry.
  - apply bool_decide_eq_true_2. now apply scan_elem_of.
  - apply bool_decide_eq_false_2. now apply scan_not_elem_of.
Qed.

Lemma X3_binary_search_sorted_witness :
  Optimized.position_is_excluded cfg_sorted9 10
  = Returns (bool_decide (10 ∈ excluded_positions cfg_sorted9)).
Proof.
  apply (X3_binary_search_sorted cfg_sorted9 10).
  - cbn. repeat constructor; lia.
  - unfold num_positions. cbn. lia.
  - cbn. intros x [= <-]. lia.
Defined.

(** X4: with more than [SMALL_ARRAY_THRESHOLD] entries, a position below
    every entry makes the binary search wrap [right] around and read
    outside the array, whatever the order of the entries. *)
Theorem X4_binary_search_underflow cfg p :
  Optimized.SMALL_ARRAY_THRESHOLD < num_positions cfg < 2 ^ 31 ->
  (forall x, x ∈ excluded_positions cfg -> p < x) ->
  Optimized.position_is_excluded cfg p = OutOfBounds.
Proof.
  intros Hn Hall. apply position_is_excluded_below; [assumption|].
  intros i x Hx. apply Hall. apply list_elem_of_lookup. eauto.
Qed.

Lemma X4_binary_search_underflow_witness :
  Optimized.position_is_excluded cfg_unsorted9 0 = OutOfBounds.
Proof.
  apply (X4_binary_search_underflow cfg_unsorted9 0).
  - unfold num_positions, Optimized.SMALL_ARRAY_THRESHOLD. cbn. lia.
  - cbn. intros x Hx.
    repeat (apply elem_of_cons in Hx as [-> | Hx]; [lia|]).
    inversion Hx.
Defined.

Lemma bsearch_found xs p :
  forall fuel left right,
    Optimized.bsearch fuel xs p left right = Returns true -> p ∈ xs.
Proof.
  induction fuel as [|fuel IH]; intros left right; cbn [Optimized.bsearch].
  - discriminate.
  - destruct (left <=? right); [|discriminate]. cbv zeta.
    unfold Optimized.read.
    destruct (_ <? Z.of_nat (length xs)); [|discriminate].
    destruct (xs !! Z.to_nat (size_t (left + right) / 2)) as [x|] eqn:Hx;
      [|discriminate].
    destruct (Z.eqb_spec x p) as [->|_].
    + intros _. apply list_elem_of_lookup. eauto.
    + destruct (x <? p); apply IH.
Qed.

(** X5: whenever the optimized lookup answers "excluded" having read only
    inside the array (the outcome [Returns true]), the position is an
    entry of the list, sorted list or not.  Nothing is said of a run that
    has read outside the array (X4): what the code does after such a read
    depends on memory that is not the list. *)
Theorem X5_in_bounds_true_is_member cfg p :
  Optimized.position_is_excluded cfg p = Returns true ->
  p ∈ excluded_positions cfg.
Proof.
  unfold Optimized.position_is_excluded.
  destruct (num_positions cfg =? 0); [discriminate|].
  destruct (num_positions cfg >? Optimized.SMALL_ARRAY_THRESHOLD).
  - apply bsearch_found.
  - intros [= Hlin]. rewrite linear_scan in Hlin. now apply scan_elem_of.
Qed.

Lemma X5_in_bounds_true_is_member_witness :
  5 ∈ excluded_positions cfg_unsorted9.
Proof.
  apply (X5_in_bounds_true_is_member cfg_unsorted9 5). reflexivity.
Defined.

(** X6: as long as its reads stay inside the array, the loop of the binary
    search cannot go on for more than [num_positions + 1] iterations:
    within that many iterations the lookup has returned or has made a read
    outside the array.  Nothing is said of what the code does after such a
    read. *)
Theorem X6_in_bounds_loop_bounded cfg p :
  num_positions cfg < 2 ^ 31 ->
  Optimized.position_is_excluded cfg p = OutOfBounds \/
  exists b, Optimized.position_is_excluded cfg p = Returns b.
Proof.
  intros Hn. pose proof (position_is_excluded_total cfg p Hn) as Htot.
  destruct (Optimized.position_is_excluded cfg p) as [b| |];
    [right; eauto | left; reflexivity | contradiction].
Qed.

Lemma X6_in_bounds_loop_bounded_witness :
  Optimized.position_is_excluded cfg_unsorted9 9 = OutOfBounds \/
  exists b, Optimized.position_is_excluded cfg_unsorted9 9 = Returns b.
Proof.
  apply (X6_in_bounds_loop_bounded cfg_unsorted9 9).
  unfold num_positions. cbn. lia.
Defined.

(** ** [update_layer_state] *)

(** X7: [update_layer_state] brings the flag to the requested value and
    is idempotent: a second call with the same value changes nothing and
    makes no call; the target, the timestamp of the last tap and the
    pending works are never touched. *)
Theorem X7_update_layer_state_idempotent b w :
  let w' := Optimized.update_layer_state b w in
  is_active (data w') = b /\
  Optimized.update_layer_state b w' = w' /\
  toggle_layer (data w') = toggle_layer (data w) /\
  last_tapped_timestamp (data w') = last_tapped_timestamp (data w) /\
  layer_disable_works w' = layer_disable_works w.
Proof.
  destruct w as [[target active last] L W calls].
  unfold Optimized.update_layer_state.
  destruct active, b; cbn; auto.
Qed.

(** ** Activations and deactivations along a run *)

Lemma outstanding_app calls1 calls2 :
  outstanding (calls1 ++ calls2) = outstanding calls1 + outstanding calls2.
Proof.
  induction calls1 as [|c calls1 IH]; [reflexivity|].
  destruct c; cbn [app outstanding]; lia.
Qed.

Ltac slack_arith :=
  unfold slack; cbn; rewrite ?outstanding_app; cbn; lia.

Lemma on_event_unfold len is_mod v cfg e w :
  on_event len is_mod v cfg e w
  = match e with
    | Trigger param1 param2 now =>
        Returns (snd (on_trigger len v cfg param1 param2 now w))
    | PositionChanged ev => on_position_changed v cfg ev w
    | KeycodeChanged ev => Returns (on_keycode_changed is_mod v ev w)
    | WorkExpired layer_index =>
        Returns (k_work_expire (on_deactivation_timer v) layer_index w)
    end.
Proof. destruct v, e; reflexivity. Qed.

Lemma trigger_slack len cfg param1 param2 now w :
  slack (snd (Mouse.auto_layer_handle_event len cfg param1 param2 now w))
  = slack w.
Proof.
  destruct w as [[target active last] L W calls].
  unfold Mouse.auto_layer_handle_event. cbv zeta.
  destruct (param1 >=? len); [reflexivity|].
  destruct active; cbn [set_toggle_layer data is_active negb andb].
  - destruct (param2 >? 0); slack_arith.
  - destruct (Mouse.should_quick_tap _ _ _), (param2 >? 0); slack_arith.
Qed.

Lemma keycode_slack is_mod ev w :
  slack (Mouse.handle_keycode_state_changed is_mod ev w) = slack w.
Proof.
  unfold Mouse.handle_keycode_state_changed. case_ifs; reflexivity.
Qed.

Lemma mouse_position_slack cfg ev w :
  slack (Mouse.handle_position_state_changed cfg ev w) = slack w.
Proof.
  destruct w as [[target active last] L W calls].
  unfold Mouse.handle_position_state_changed.
  destruct (pos_state ev), active; cbn [data is_active andb];
    try reflexivity.
  destruct (Mouse.is_position_excluded cfg (position ev)); slack_arith.
Qed.

Lemma update_layer_state_slack b w :
  slack (Optimized.update_layer_state b w) = slack w.
Proof.
  destruct w as [[target active last] L W calls].
  unfold Optimized.update_layer_state. destruct active, b; slack_arith.
Qed.

Lemma optimized_position_slack cfg ev w w' :
  Optimized.handle_position_state_changed cfg ev w = Returns w' ->
  slack w' = slack w.
Proof.
  unfold Optimized.handle_position_state_changed.
  destruct (Optimized.position_is_excluded cfg (position ev)) as [b| |];
    case_ifs; intros [= <-];
    try reflexivity; apply update_layer_state_slack.
Qed.

Lemma mouse_timer_slack layer_index w :
  slack w <= slack (k_work_expire Mouse.layer_disable_cb layer_index w).
Proof.
  destruct w as [[target active last] L W calls].
  unfold k_work_expire, Mouse.layer_disable_cb.
  destruct (zmk_keymap_layer_active _ _); [|slack_arith].
  destruct active; slack_arith.
Qed.

Lemma optimized_timer_slack layer_index w :
  slack (k_work_expire Optimized.layer_disable_callback layer_index w)
  = slack w.
Proof.
  unfold k_work_expire, Optimized.layer_disable_callback.
  destruct (zmk_keymap_layer_active _ _); [|reflexivity].
  now rewrite update_layer_state_slack.
Qed.

Lemma on_event_slack len is_mod v cfg e w w' :
  on_event len is_mod v cfg e w = Returns w' ->
  slack w <= slack w' /\ (v = optimized -> slack w' = slack w).
Proof.
  rewrite on_event_unfold.
  destruct e as [param1 param2 now | ev | ev | layer_index].
  - intros [= <-]. rewrite on_trigger_mouse, trigger_slack. split; [lia|auto].
  - destruct v; cbn [on_position_changed]; unfold lift.
    + intros [= <-]. rewrite mouse_position_slack. split; [lia|auto].
    + intros Hpos. apply optimized_position_slack in Hpos. split; [lia|auto].
  - intros [= <-]. rewrite on_keycode_mouse, keycode_slack. split; [lia|auto].
  - intros [= <-]. destruct v; cbn [on_deactivation_timer].
    + split; [apply mouse_timer_slack | discriminate].
    + rewrite optimized_timer_slack. split; [lia|auto].
Qed.

Lemma on_events_slack len is_mod v cfg es :
  forall w w',
    on_events len is_mod v cfg es w = Returns w' ->
    slack w <= slack w' /\ (v = optimized -> slack w' = slack w).
Proof.
  induction es as [|e es IH]; intros w w' Hrun.
  - rewrite on_events_nil in Hrun. injection Hrun as <-. split; [lia|auto].
  - rewrite on_events_cons in Hrun.
    destruct (on_event len is_mod v cfg e w) as [w1| |] eqn:Hstep;
      try discriminate.
    destruct (on_event_slack _ _ _ _ _ _ _ Hstep) as [Hle1 Heq1].
    destruct (IH _ _ Hrun) as [Hle2 Heq2].
    split; [lia|]. intros Hv. rewrite (Heq2 Hv), (Heq1 Hv). reflexivity.
Qed.



(** X9: in the optimized implementation, where every call to the layer
    primitive goes through [update_layer_state], activations and
    deactivations alternate: the number of unmatched activations is 1
    while the flag is set and 0 while it is clear. *)
Theorem X9_calls_alternate len is_mod cfg es w w' :
  outstanding (trace w) = Z.b2z (is_active (data w)) ->
  on_events len is_mod optimized cfg es w = Returns w' ->
  outstanding (trace w') = Z.b2z (is_active (data w')).
Proof.
  intros Hinv Hrun.
  destruct (on_events_slack _ _ _ _ _ _ _ Hrun) as [_ Heq].
  specialize (Heq eq_refl). unfold slack in Heq. lia.
Qed.

Lemma X9_calls_alternate_witness :
  let w' := Mouse.run 4 hid_is_mod cfg_scenario
              (scenario_start ++ scenario_rest) world0 in
  outstanding (trace w') = Z.b2z (is_active (data w')).
Proof.
  apply (X9_calls_alternate 4 hid_is_mod cfg_scenario
           (scenario_start ++ scenario_rest) world0); reflexivity.
Defined.

(** ** The works of the other layers *)

(** X10: a trigger leaves the work of every layer other than its own as it
    was, whether it is accepted or not. *)
Theorem X10_trigger_other_works len v cfg param1 param2 now w j :
  j <> param1 ->
  layer_disable_works (snd (on_trigger len v cfg param1 param2 now w)) !! j
  = layer_disable_works w !! j.
Proof.
  intros Hj. rewrite on_trigger_mouse.
  unfold Mouse.auto_layer_handle_event. cbv zeta.
  case_ifs; cbn; rewrite ?lookup_insert_ne by congruence; reflexivity.
Qed.

Lemma X10_trigger_other_works_witness :
  let w := snd (on_trigger 4 mouse cfg_scenario 2 1000 500 world0) in
  layer_disable_works (snd (on_trigger 4 mouse cfg_scenario 1 300 600 w)) !! 2
  = layer_disable_works w !! 2.
Proof.
  intros w.
  apply (X10_trigger_other_works 4 mouse cfg_scenario 1 300 600 w 2). lia.
Defined.

Lemma works_bounded_trigger len cfg param1 param2 now w j :
  (forall i, is_Some (layer_disable_works w !! i) -> i < len) ->
  is_Some (layer_disable_works
             (snd (Mouse.auto_layer_handle_event len cfg param1 param2 now w))
           !! j) ->
  j < len.
Proof.
  intros Hinv. unfold Mouse.auto_layer_handle_event. cbv zeta.
  destruct (Z.geb_spec param1 len) as [Hge|Hlt]; [apply Hinv|].
  destruct (Z.eq_dec param1 j) as [<-|Hne]; [intros _; exact Hlt|].
  case_ifs; cbn; rewrite ?lookup_insert_ne by congruence; apply Hinv.
Qed.

Lemma works_bounded_event len is_mod v cfg e w w' :
  (forall i, is_Some (layer_disable_works w !! i) -> i < len) ->
  on_event len is_mod v cfg e w = Returns w' ->
  forall j, is_Some (layer_disable_works w' !! j) -> j < len.
Proof.
  intros Hinv. rewrite on_event_unfold.
  destruct e as [param1 param2 now | ev | ev | layer_index].
  - intros [= <-] j. rewrite on_trigger_mouse.
    now apply works_bounded_trigger.
  - intros Hpos j.
    assert (Hsame : layer_disable_works w' = layer_disable_works w).
    { revert Hpos. destruct v; cbn [on_position_changed]; unfold lift.
      - intros [= <-]. unfold Mouse.handle_position_state_changed.
        case_ifs; reflexivity.
      - unfold Optimized.handle_position_state_changed,
          Optimized.update_layer_state.
        destruct (Optimized.position_is_excluded cfg (position ev));
          case_ifs; intros [= <-]; reflexivity. }
    rewrite Hsame. apply Hinv.
  - intros [= <-] j. rewrite on_keycode_mouse.
    unfold Mouse.handle_keycode_state_changed. case_ifs; apply Hinv.
  - intros [= <-] j.
    assert (Hsame : layer_disable_works
                      (k_work_expire (on_deactivation_timer v) layer_index w)
                    = delete layer_index (layer_disable_works w)).
    { unfold k_work_expire.
      destruct v; cbn [on_deactivation_timer];
        [unfold Mouse.layer_disable_cb
        |unfold Optimized.layer_disable_callback,
           Optimized.update_layer_state];
        case_ifs; reflexivity. }
    rewrite Hsame. intros Hj. apply Hinv.
    destruct (Z.eq_dec layer_index j) as [<-|Hne].
    + rewrite lookup_delete_eq in Hj. destruct Hj as [x Hx]. discriminate.
    + now rewrite lookup_delete_ne in Hj by assumption.
Qed.

(** X11: no run ever schedules a work at an index that is not below the
    number of layers: the array of works is never indexed past its end. *)
Theorem X11_works_in_bounds len is_mod v cfg es :
  forall w w',
    (forall i, is_Some (layer_disable_works w !! i) -> i < len) ->
    on_events len is_mod v cfg es w = Returns w' ->
    forall j, is_Some (layer_disable_works w' !! j) -> j < len.
Proof.
  induction es as [|e es IH]; intros w w' Hinv Hrun.
  - rewrite on_events_nil in Hrun. injection Hrun as <-. exact Hinv.
  - rewrite on_events_cons in Hrun.
    destruct (on_event len is_mod v cfg e w) as [w1| |] eqn:Hstep;
      try discriminate.
    apply (IH w1 w'); [|exact Hrun].
    exact (works_bounded_event _ _ _ _ _ _ _ Hinv Hstep).
Qed.

Lemma X11_works_in_bounds_witness :
  let w' := Mouse.run 4 hid_is_mod cfg_scenario
              (scenario_start ++ [Trigger 7 300 1150]) world0 in
  is_Some (layer_disable_works w' !! 2) /\ 2 < 4.
Proof.
  intros w'. assert (Hsome : is_Some (layer_disable_works w' !! 2)).
  { exists 300. reflexivity. }
  split; [exact Hsome|].
  refine (X11_works_in_bounds 4 hid_is_mod optimized cfg_scenario
            (scenario_start ++ [Trigger 7 300 1150]) world0 w' _ eq_refl
            2 Hsome).
  intros i [x Hx]. discriminate Hx.
Defined.

(** X12: two accepted triggers for one layer with positive delays leave
    one pending work for that layer, holding the later delay; the works of
    the other layers are those from before the first trigger. *)
Theorem X12_reschedule_replaces len v cfg param1 d1 d2 now1 now2 w :
  param1 < len -> 0 < d1 -> 0 < d2 ->
  let w1 := snd (on_trigger len v cfg param1 d1 now1 w) in
  let w2 := snd (on_trigger len v cfg param1 d2 now2 w1) in
  layer_disable_works w2 = <[param1 := d2]> (layer_disable_works w).
Proof.
  intros Hp Hd1 Hd2 w1 w2. subst w1 w2. rewrite !on_trigger_mouse.
  unfold Mouse.auto_layer_handle_event. cbv zeta.
  destruct (Z.geb_spec param1 len) as [Hge|_]; [lia|].
  destruct (Z.gtb_spec d1 0) as [_|Hle]; [|lia].
  destruct (Z.gtb_spec d2 0) as [_|Hle]; [|lia].
  case_ifs; cbn; apply insert_insert_eq.
Qed.

Lemma X12_reschedule_replaces_witness :
  let w1 := snd (on_trigger 4 optimized cfg_scenario 2 500 1000 world0) in
  let w2 := snd (on_trigger 4 optimized cfg_scenario 2 2000 1100 w1) in
  layer_disable_works w2 = <[2 := 2000]> ∅.
Proof.
  apply (X12_reschedule_replaces 4 optimized cfg_scenario 2 500 2000 1000
           1100 world0); lia.
Defined.

(** ** What the handlers never do *)

(** X13: whenever the position handler returns, it has either done nothing
    or done exactly one thing, on an active controller and a key-down:
    cleared the flag and deactivated the current target.  It never
    activates a layer, never writes the target or the timestamp and never
    touches a work. *)
Theorem X13_position_effect v cfg ev w w' :
  on_position_changed v cfg ev w = Returns w' ->
  w' = w \/
  (pos_state ev = true /\ is_active (data w) = true /\
   w' = zmk_keymap_layer_deactivate (toggle_layer (data w))
          (set_is_active false w)).
Proof.
  destruct v; cbn [on_position_changed]; unfold lift.
  - intros [= <-]. unfold Mouse.handle_position_state_changed.
    destruct (pos_state ev), (is_active (data w)); cbn [andb]; auto.
    destruct (negb _); auto.
  - unfold Optimized.handle_position_state_changed.
    destruct (pos_state ev); cbn [negb]; [|intros [= <-]; auto].
    destruct (is_active (data w)) eqn:Hact; [|intros [= <-]; auto].
    destruct (Optimized.position_is_excluded cfg (position ev)) as [b| |];
      try discriminate.
    destruct b; cbn [negb]; intros [= <-]; [auto|].
    right. rewrite update_layer_state_deactivate by assumption. auto.
Qed.

Lemma X13_position_effect_witness :
  let w := active_on 2 in
  let w' := zmk_keymap_layer_deactivate 2 (set_is_active false w) in
  w' = w \/
  (pos_state (press 9) = true /\ is_active (data w) = true /\
   w' = zmk_keymap_layer_deactivate (toggle_layer (data w))
          (set_is_active false w)).
Proof.
  apply (X13_position_effect optimized cfg_unsorted9 (press 9) (active_on 2)).
  reflexivity.
Defined.

(** X14: after the timer callback of the plain implementation the layer
    whose work expired is not active, whatever the state before. *)
Theorem X14_expired_layer_off layer_index w :
  layer_index ∉ layers (Mouse.layer_disable_cb layer_index w).
Proof.
  unfold Mouse.layer_disable_cb, zmk_keymap_layer_active.
  destruct (bool_decide_reflect (layer_index ∈ layers w)) as [Hon|Hoff]; cbn.
  - rewrite elem_of_difference, elem_of_singleton. tauto.
  - exact Hoff.
Qed.

(** X15: the timer callback of either implementation never activates a
    layer and never writes the target, the timestamp of the last tap or a
    work; afterwards the controller is idle or the layer whose work
    expired is inactive. *)
Theorem X15_timer_effect v layer_index w :
  let w' := on_deactivation_timer v layer_index w in
  toggle_layer (data w') = toggle_layer (data w) /\
  last_tapped_timestamp (data w') = last_tapped_timestamp (data w) /\
  layer_disable_works w' = layer_disable_works w /\
  layers w' ⊆ layers w /\
  is_active (data w') && zmk_keymap_layer_active layer_index w' = false.
Proof.
  destruct w as [[target active last] L W calls].
  destruct v; cbn [on_deactivation_timer];
    [unfold Mouse.layer_disable_cb
    |unfold Optimized.layer_disable_callback, Optimized.update_layer_state];
    destruct (zmk_keymap_layer_active layer_index _) eqn:Hon;
    try destruct active; cbn in *;
    repeat split; try reflexivity; try set_solver;
    rewrite ?Hon, ?andb_false_r; reflexivity.
Qed.

(** ** The guard after initialisation and over time *)

(** X16: initialisation zeroes the timestamp of the last tap, so the first
    trigger after it is judged against time zero: it activates exactly
    when the uptime has reached the idle threshold, although no key was
    tapped. *)
Theorem X16_guard_after_init len v cfg param1 param2 now w :
  0 <= param1 < len -> len <= 256 ->
  in_int64 (require_prior_idle_ms cfg) ->
  is_active (data (snd (on_trigger len v cfg param1 param2 now (on_init v w))))
  = (require_prior_idle_ms cfg <=? now).
Proof.
  intros Hp Hlen Hr. rewrite on_trigger_mouse, trigger_valid by assumption.
  assert (Hidle : is_active (data (on_init v w)) = false)
    by (destruct v; reflexivity).
  assert (Hlast : last_tapped_timestamp (data (on_init v w)) = 0)
    by (destruct v; reflexivity).
  rewrite Hidle. cbn [orb]. unfold Mouse.should_quick_tap.
  rewrite Hlast, Z.add_0_l, (int64_t_id _ Hr).
  cbv zeta. cbn [snd].
  destruct (Z.gtb_spec (require_prior_idle_ms cfg) now) as [Hlt|Hge],
    (Z.leb_spec (require_prior_idle_ms cfg) now) as [Hle|Hgt];
    try lia; destruct (param2 >? 0); cbn; try reflexivity; exact Hidle.
Qed.

Lemma X16_guard_after_init_witness :
  is_active (data (snd (on_trigger 4 optimized cfg_scenario 2 300 100
                          (on_init optimized (active_on 1)))))
  = (require_prior_idle_ms cfg_scenario <=? 100).
Proof.
  apply (X16_guard_after_init 4 optimized cfg_scenario 2 300 100 (active_on 1));
    try lia. unfold in_int64. cbn. lia.
Defined.

(** X17: a trigger that activates an idle controller at some time would
    also activate it at any later time: without a new tap the guard, once
    lapsed, does not come back. *)
Theorem X17_guard_stays_lapsed len v cfg param1 param2 now now' w :
  0 <= param1 < len -> len <= 256 ->
  is_active (data w) = false ->
  is_active (data (snd (on_trigger len v cfg param1 param2 now w))) = true ->
  now <= now' ->
  is_active (data (snd (on_trigger len v cfg param1 param2 now' w))) = true.
Proof.
  intros Hp Hlen Hidle. rewrite !on_trigger_mouse.
  rewrite !trigger_valid by assumption. rewrite Hidle. cbn [orb].
  unfold Mouse.should_quick_tap. cbv zeta. cbn [snd].
  set (deadline := int64_t _).
  destruct (Z.gtb_spec deadline now) as [Hgt|Hle].
  - destruct (param2 >? 0); cbn; rewrite Hidle; discriminate.
  - intros _ Hlater.
    destruct (Z.gtb_spec deadline now') as [Hgt'|_]; [lia|].
    destruct (param2 >? 0); reflexivity.
Qed.

Lemma X17_guard_stays_lapsed_witness :
  let tapped := on_keycode_changed hid_is_mod mouse (key_down 4 1000) world0 in
  is_active (data (snd (on_trigger 4 mouse cfg_scenario 2 0 5000 tapped)))
  = true.
Proof.
  intros tapped.
  apply (X17_guard_stays_lapsed 4 mouse cfg_scenario 2 0 1150 5000 tapped);
    try lia; reflexivity.
Defined.

(** X18: a trigger never deactivates: the flag, once set, stays set, every
    layer that was active stays active, and no call it makes is a
    deactivation. *)
Theorem X18_trigger_never_deactivates len v cfg param1 param2 now w :
  let w' := snd (on_trigger len v cfg param1 param2 now w) in
  implb (is_active (data w)) (is_active (data w')) = true /\
  layers w ⊆ layers w' /\
  exists calls,
    trace w' = trace w ++ calls /\
    Forall (fun c => is_deactivate c = false) calls.
Proof.
  destruct w as [[target active last] L W calls].
  rewrite on_trigger_mouse. unfold Mouse.auto_layer_handle_event. cbv zeta.
  destruct (param1 >=? len).
  - cbn. split; [now destruct active|]. split; [set_solver|].
    exists []. rewrite app_nil_r. auto.
  - destruct active; cbn [set_toggle_layer data is_active negb andb].
    + destruct (param2 >? 0); cbn; (split; [reflexivity|]);
        (split; [set_solver|]).
      * exists [Reschedule param1 param2]. split; [reflexivity|].
        repeat constructor.
      * exists []. rewrite app_nil_r. split; [reflexivity | constructor].
    + destruct (Mouse.should_quick_tap _ _ _), (param2 >? 0); cbn;
        (split; [reflexivity|]); (split; [set_solver|]).
      * exists [Reschedule param1 param2]. split; [reflexivity|].
        repeat constructor.
      * exists []. rewrite app_nil_r. split; [reflexivity | constructor].
      * exists [Activate (uint8_t param1); Reschedule param1 param2].
        rewrite <- app_assoc. split; [reflexivity | repeat constructor].
      * exists [Activate (uint8_t param1)].
        split; [reflexivity | repeat constructor].
Qed.

(** ** The two implementations against each other *)

(** X19: on triggers and on keycode events the two implementations do the
    same thing on every input: same return code, same state, same calls
    in the same order. *)
Theorem X19_same_trigger_and_keycode len is_mod cfg param1 param2 now ev w :
  Optimized.auto_layer_handle_event len cfg param1 param2 now w
  = Mouse.auto_layer_handle_event len cfg param1 param2 now w /\
  Optimized.handle_keycode_state_changed is_mod ev w
  = Mouse.handle_keycode_state_changed is_mod ev w.
Proof. split; [apply trigger_agree | apply keycode_agree]. Qed.

(** X20: on position events the optimized implementation does what the
    plain one does whenever the list has at most [SMALL_ARRAY_THRESHOLD]
    entries, or is sorted and the position is not below its first
    entry. *)
Theorem X20_same_position_handling cfg ev w :
  num_positions cfg <= Optimized.SMALL_ARRAY_THRESHOLD \/
  (StronglySorted Z.le (excluded_positions cfg) /\
   num_positions cfg < 2 ^ 31 /\
   forall x, excluded_positions cfg !! 0%nat = Some x -> x <= position ev) ->
  Optimized.handle_position_state_changed cfg ev w
  = Returns (Mouse.handle_position_state_changed cfg ev w).
Proof.
  intros [Hsmall | (Hs & Hn & Hhead)]; apply optimized_position_rule.
  - now apply position_is_excluded_small.
  - now apply position_is_excluded_sorted.
Qed.

Lemma X20_same_position_handling_witness :
  Optimized.handle_position_state_changed cfg_sorted9 (press 12) (active_on 2)
  = Returns (Mouse.handle_position_state_changed cfg_sorted9 (press 12)
               (active_on 2)).
Proof.
  apply (X20_same_position_handling cfg_sorted9 (press 12) (active_on 2)).
  right. split; [cbn; repeat constructor; lia|].
  split; [unfold num_positions; cbn; lia|].
  cbn. intros x [= <-]. lia.
Defined.

(** X21: the two timer callbacks do the same thing exactly when the layer
    whose work expired is inactive, or the controller is active on that
    very layer; on every other state they differ. *)
Theorem X21_same_timer_callback layer_index w :
  Optimized.layer_disable_callback layer_index w
  = Mouse.layer_disable_cb layer_index w <->
  layer_index ∉ layers w \/
  (is_active (data w) = true /\ toggle_layer (data w) = layer_index).
Proof.
  rewrite optimized_timer_rule.
  unfold Mouse.layer_disable_cb, zmk_keymap_layer_active.
  destruct (bool_decide_reflect (layer_index ∈ layers w)) as [Hon|Hoff];
    cbn [andb].
  - destruct (is_active (data w)) eqn:Hact.
    + split.
      * intros Heq. right. split; [reflexivity|].
        apply (f_equal trace) in Heq. cbn in Heq.
        apply app_inv_head in Heq. congruence.
      * intros [Hoff | [_ ->]]; [contradiction | reflexivity].
    + split.
      * intros Heq. apply (f_equal (fun x => length (trace x))) in Heq.
        cbn in Heq. rewrite length_app in Heq. cbn in Heq. lia.
      * intros [Hoff | [Hact' _]]; [contradiction | discriminate].
  - split; [intros _; left; exact Hoff | reflexivity].
Qed.

Lemma X21_same_timer_callback_witness :
  Optimized.layer_disable_callback 2 (active_on 2)
  = Mouse.layer_disable_cb 2 (active_on 2).
Proof.
  apply (proj2 (X21_same_timer_callback 2 (active_on 2))).
  right. split; reflexivity.
Defined.

(** X22: once a position event has ended the temporary layer, the timer
    of that layer does nothing in either implementation: no second
    deactivation is issued. *)
Theorem X22_timer_after_position_event v cfg ev w w' :
  on_position_changed v cfg ev w = Returns w' ->
  w' <> w ->
  on_deactivation_timer v (toggle_layer (data w)) w' = w'.
Proof.
  intros Hpos Hchanged.
  assert (Hw' : w' = zmk_keymap_layer_deactivate (toggle_layer (data w))
                       (set_is_active false w)).
  { revert Hpos. destruct v; cbn [on_position_changed]; unfold lift.
    - intros [= <-]. revert Hchanged.
      unfold Mouse.handle_position_state_changed.
      destruct (_ && _); [reflexivity | congruence].
    - unfold Optimized.handle_position_state_changed.
      destruct (pos_state ev); cbn [negb]; [|congruence].
      destruct (is_active (data w)) eqn:Hact; [|congruence].
      destruct (Optimized.position_is_excluded cfg (position ev)) as [b| |];
        try discriminate.
      destruct b; cbn [negb]; [congruence|].
      intros [= <-]. now apply update_layer_state_deactivate. }
  rewrite Hw'. apply timer_after_deactivation.
Qed.

Lemma X22_timer_after_position_event_witness :
  let w' := zmk_keymap_layer_deactivate 2 (set_is_active false (active_on 2)) in
  on_deactivation_timer mouse 2 w' = w'.
Proof.
  intros w'.
  apply (X22_timer_after_position_event mouse cfg_scenario (press 5)
           (active_on 2) w'); [reflexivity|].
  intros Heq. apply (f_equal trace) in Heq. discriminate Heq.
Defined.
